(** * ScopeBlind: gateway, VOPRF client, holder binding and widget

    A shallow embedding of the TypeScript sources

      - [gateway/src/index.ts]               (module [Gateway])
      - [packages/widget/src/voprf.ts]       (module [Voprf])
      - [packages/widget/src/holder-binding.ts] (module [HolderBinding])
      - [packages/widget/src/ui.ts]          (module [UI])
      - [packages/widget/src/index.ts]       (module [Widget])

    Asynchronous functions are embedded in direct style: every [await] is a
    sequencing point of a state-and-exception monad.  Platform services the
    sources call but do not define (the Fetch API, [crypto.subtle], the
    VOPRF library, [btoa]/[atob], [JSON], the URL parser) are parameters.
    Console output and the [lastStats] timing record are left out: nothing
    reads them. *)

From Stdlib Require Import ZArith Lia Bool List Ascii String DecimalString.
From stdpp Require Import base option gmap strings.
Import ListNotations.

Set Warnings "-register-all".

Local Open Scope string_scope.
Local Open Scope list_scope.
Local Open Scope Z_scope.

(** ** JavaScript values shared by the modules *)

Module JS.

(** A parsed JSON document, the result of [Response.json()]. *)
Inductive JSON : Type :=
| JNull
| JBool (b : bool)
| JNum (n : Z)
| JStr (s : string)
| JArr (items : list JSON)
| JObj (fields : list (string * JSON)).

(** Truthiness of a [string | undefined] value: [undefined] and the empty
    string are falsy. *)
Definition truthy (v : option string) : bool :=
  match v with
  | Some s => negb (String.eqb s "")
  | None => false
  end.

(** [a || b] on [string | undefined]. *)
Definition or_else (a : option string) (b : string) : string :=
  match a with
  | Some s => if String.eqb s "" then b else s
  | None => b
  end.

(** [String.prototype.toLowerCase] on the ASCII range. *)
Definition lower_ascii (c : ascii) : ascii :=
  let n := N_of_ascii c in
  if (65 <=? n)%N && (n <=? 90)%N then ascii_of_N (n + 32) else c.

Fixpoint toLowerCase (s : string) : string :=
  match s with
  | EmptyString => EmptyString
  | String c r => String (lower_ascii c) (toLowerCase r)
  end.

(** [s.startsWith(p)]. *)
Fixpoint startsWith (p s : string) : bool :=
  match p, s with
  | EmptyString, _ => true
  | String a p', String b s' => Ascii.eqb a b && startsWith p' s'
  | String _ _, EmptyString => false
  end.

(** [s.includes(c)] for a single character. *)
Fixpoint includes (c : ascii) (s : string) : bool :=
  match s with
  | EmptyString => false
  | String a r => Ascii.eqb a c || includes c r
  end.

(** A [Headers] object, as the list of pairs its [entries()] yields. *)
Definition Headers : Type := list (string * string).

Definition name_is (n : string) (kv : string * string) : bool :=
  String.eqb (toLowerCase (fst kv)) n.

(** [headers.get(name)]: names are matched without regard to case. *)
Definition headers_get (name : string) (h : Headers) : option string :=
  match find (name_is (toLowerCase name)) h with
  | Some kv => Some (snd kv)
  | None => None
  end.

(** [headers.set(name, value)] for a valid name and a normalised valid
    value: the name is stored in lower case; the first entry of that name
    takes the value, later ones are removed, and a name that is not there
    yet is appended. *)
Fixpoint set_existing (n value : string) (seen : bool) (h : Headers) : Headers :=
  match h with
  | [] => []
  | kv :: t =>
      if name_is n kv
      then (if seen then set_existing n value true t
            else (n, value) :: set_existing n value true t)
      else kv :: set_existing n value seen t
  end.

Definition headers_set (name value : string) (h : Headers) : Headers :=
  let n := toLowerCase name in
  if existsb (name_is n) h
  then set_existing n value false h
  else h ++ [(n, value)].

(** [headers.append(name, value)]: the value joins the value of an entry
    of that name, and a name that is not there yet is appended. *)
Fixpoint append_existing (n value : string) (h : Headers) : Headers :=
  match h with
  | [] => []
  | kv :: t =>
      if name_is n kv then (fst kv, snd kv +:+ ", " +:+ value) :: t
      else kv :: append_existing n value t
  end.

Definition headers_append (name value : string) (h : Headers) : Headers :=
  let n := toLowerCase name in
  if existsb (name_is n) h
  then append_existing n value h
  else h ++ [(n, value)].

(** What [set] and [append] do to their arguments before they store
    anything.  HTTP whitespace is tab, line feed, carriage return and
    space; a value is normalised by removing it from both ends. *)
Definition http_whitespace (c : ascii) : bool :=
  let n := N_of_ascii c in
  (n =? 9)%N || (n =? 10)%N || (n =? 13)%N || (n =? 32)%N.

Fixpoint trim_start (s : string) : string :=
  match s with
  | EmptyString => EmptyString
  | String c r => if http_whitespace c then trim_start r else s
  end.

Fixpoint trim_end (s : string) : string :=
  match s with
  | EmptyString => EmptyString
  | String c r =>
      let r' := trim_end r in
      if http_whitespace c && String.eqb r' "" then EmptyString else String c r'
  end.

Definition normalize_value (s : string) : string := trim_end (trim_start s).

Fixpoint all_chars (f : ascii -> bool) (s : string) : bool :=
  match s with
  | EmptyString => true
  | String c r => f c && all_chars f r
  end.

(** The characters of an HTTP token: letters, digits and the fifteen
    marks the grammar allows. *)
Definition token_char (c : ascii) : bool :=
  let n := N_of_ascii c in
  ((48 <=? n) && (n <=? 57) || (65 <=? n) && (n <=? 90) || (94 <=? n) && (n <=? 122)
   || (n =? 33) || (35 <=? n) && (n <=? 39) || (n =? 42) || (n =? 43)
   || (n =? 45) || (n =? 46) || (n =? 124) || (n =? 126))%N.

(** A header name is a non-empty token; a header value holds no NUL, line
    feed or carriage return. *)
Definition header_name (s : string) : bool :=
  negb (String.eqb s "") && all_chars token_char s.

Definition header_value (s : string) : bool :=
  all_chars (fun c => let n := N_of_ascii c in
                      negb ((n =? 0)%N || (n =? 10)%N || (n =? 13)%N)) s.

(** The observable part of a Fetch [Response]: [ok] is derived from the
    status, [text()] gives the body, [json()] gives the parsed body or
    throws ([None]) when the body is not JSON. *)
Record Response : Type := mkResponse {
  status : Z;
  statusText : string;
  resp_headers : Headers;
  text : string;
  json : option JSON
}.

Definition ok (r : Response) : bool := (200 <=? status r) && (status r <=? 299).

(** Outcome of a [fetch] call: the promise rejects (the peer is
    unreachable) or resolves to a response. *)
Inductive FetchOutcome : Type :=
| Rejected (message : string)
| Resolved (r : Response).

End JS.

(** ** The gateway: [gateway/src/index.ts] *)

Module Gateway.
Import JS.

(** [Bindings]: the worker's environment.  An unset variable is [None]. *)
Record Bindings : Type := mkBindings {
  BACKEND_URL : option string;
  SCOPEBLIND_VERIFIER_URL : option string;
  SCOPEBLIND_SECRET : option string
}.

(** The inbound request as the handler reads it: [c.req.method],
    [c.req.path] (the path as the framework hands it out, percent-decoded),
    [new URL(c.req.url).search], the entries of [c.req.raw.headers] (valid
    names and normalised values, which [set] stores unchanged) and
    [c.req.raw.body] ([null] is [None]). *)
Record Request : Type := mkRequest {
  method : string;
  path : string;
  search : string;
  headers : Headers;
  body : option string
}.

(** A [URL] object, by the components [toString()] serializes. *)
Record URL : Type := mkURL {
  url_origin : string;
  url_host : string;
  url_pathname : string;
  url_search : string;
  url_hash : string
}.

(** [url.search = value] for a value that the [search] getter of another
    URL returned: it is already serialized, so it is stored as it is. *)
Definition set_search (value : string) (u : URL) : URL :=
  {| url_origin := url_origin u; url_host := url_host u;
     url_pathname := url_pathname u; url_search := value; url_hash := url_hash u |}.

(** The JSON body posted to the verifier; [undefined] members are left out
    by [JSON.stringify], here [None]. *)
Record VerifyPayload : Type := mkVerifyPayload {
  vp_proof : option string;
  vp_token : option string;
  vp_path : string;
  vp_method : string
}.

Record VerifyCall : Type := mkVerifyCall {
  vc_url : string;
  vc_authorization : option string;
  vc_payload : VerifyPayload
}.

Record BackendCall : Type := mkBackendCall {
  bc_url : URL;
  bc_method : string;
  bc_headers : Headers;
  bc_body : option string
}.

(** Outbound calls, in the order the handler makes them. *)
Inductive Call : Type :=
| CallVerifier (c : VerifyCall)
| CallBackend (c : BackendCall).

(** What the handler answers: [c.json({error, details}, status)], the
    relayed backend response, or an exception escaping the handler, which
    the framework turns into a bare 500. *)
Inductive Reply : Type :=
| JsonError (code : Z) (error : string) (details : option string)
| Relayed (r : Response)
| Uncaught.

Definition default_verifier : string :=
  "https://scopeblind-verifier-deterministic.tomjwxf.workers.dev".

Section Handler.

(** [new URL(input, base)], the platform's URL parser: [None] when it
    throws.  It resolves [input] against [base] and serializes the result,
    so the pathname it yields need not be [input]. *)
Variable new_URL : string -> string -> option URL.
(** The verifier and the backend, as seen through [fetch]. *)
Variable verifier : VerifyCall -> FetchOutcome.
Variable backend : BackendCall -> FetchOutcome.

Definition carries_proof (req : Request) : bool :=
  truthy (headers_get "X-ScopeBlind-Proof" (headers req))
  || truthy (headers_get "X-ScopeBlind-Token" (headers req)).

Definition verify_call (env : Bindings) (req : Request) : VerifyCall :=
  {| vc_url := or_else (SCOPEBLIND_VERIFIER_URL env) default_verifier +:+ "/verify";
     vc_authorization :=
       if truthy (SCOPEBLIND_SECRET env)
       then Some ("Bearer " +:+ or_else (SCOPEBLIND_SECRET env) "")
       else None;
     vc_payload :=
       {| vp_proof := headers_get "X-ScopeBlind-Proof" (headers req);
          vp_token := headers_get "X-ScopeBlind-Token" (headers req);
          vp_path := path req;
          vp_method := method req |} |}.

(** Step 1 of the handler.  [inl reply] is an early [return]; [inr calls]
    falls through to step 2 with the calls made so far. *)
Definition verify_step (env : Bindings) (req : Request) : Reply * list Call + list Call :=
  if carries_proof req then
    let call := verify_call env req in
    match verifier call with
    | Rejected _ =>
        inl (JsonError 503 "Verification service unavailable" None, [CallVerifier call])
    | Resolved vr =>
        if negb (ok vr) then
          inl (JsonError 403 "Invalid ScopeBlind proof" (Some (text vr)), [CallVerifier call])
        else
          match json vr with
          | None =>
              inl (JsonError 503 "Verification service unavailable" None, [CallVerifier call])
          | Some _ => inr [CallVerifier call]
          end
    end
  else inr [].

(** [key.toLowerCase().startsWith('x-scopeblind')]: a header of the
    protocol. *)
Definition reserved (kv : string * string) : bool :=
  startsWith "x-scopeblind" (toLowerCase (fst kv)).

(** The header copy loop: every entry that is not reserved is [set] on a
    fresh [Headers]. *)
Definition copy_headers (h : Headers) : Headers :=
  fold_left
    (fun acc kv => if negb (reserved kv) then headers_set (fst kv) (snd kv) acc else acc)
    h [].

Definition forwarded_body (req : Request) : option string :=
  if negb (String.eqb (method req) "GET") && negb (String.eqb (method req) "HEAD")
  then body req
  else None.

(** The call to the backend, from the parsed target URL. *)
Definition backend_call (target : URL) (req : Request) : BackendCall :=
  {| bc_url := set_search (search req) target;
     bc_method := method req;
     bc_headers := headers_set "Host" (url_host target) (copy_headers (headers req));
     bc_body := forwarded_body req |}.

(** Step 2 of the handler. *)
Definition forward_step (env : Bindings) (req : Request) (made : list Call) : Reply * list Call :=
  match BACKEND_URL env with
  | None => (JsonError 500 "BACKEND_URL not configured" None, made)
  | Some backendUrl =>
      if String.eqb backendUrl "" then
        (JsonError 500 "BACKEND_URL not configured" None, made)
      else
        match new_URL (path req) backendUrl with
        | None => (Uncaught, made)
        | Some target =>
            let call := backend_call target req in
            match backend call with
            | Resolved r =>
                (Relayed {| status := status r;
                            statusText := statusText r;
                            resp_headers :=
                              headers_set "Access-Control-Allow-Origin" "*" (resp_headers r);
                            text := text r;
                            json := json r |},
                 made ++ [CallBackend call])
            | Rejected msg =>
                (JsonError 502 "Backend unreachable" (Some msg), made ++ [CallBackend call])
            end
        end
  end.

(** [app.all('/api/*', ...)]. *)
Definition api_handler (env : Bindings) (req : Request) : Reply * list Call :=
  match verify_step env req with
  | inl early => early
  | inr made => forward_step env req made
  end.

(** The backend calls among the calls made. *)
Definition backend_calls (calls : list Call) : list BackendCall :=
  flat_map (fun c => match c with CallBackend b => [b] | CallVerifier _ => [] end) calls.

End Handler.

End Gateway.

(** ** Exceptions and mutable state *)

Module Effect.

(** JavaScript exceptions, by constructor. *)
Inductive Exn : Type :=
| ReferenceError (message : string)
| TypeError (message : string)
| SyntaxError (message : string)
| DOMException (message : string)
| Error (message : string).

Inductive Result (A : Type) : Type :=
| Ok (a : A)
| Throw (e : Exn).
Arguments Ok {A} a.
Arguments Throw {A} e.

(** A computation over a mutable state [S] that returns or throws.  A
    throw keeps the mutations made before it. *)
Definition M (S A : Type) : Type := S -> Result A * S.

Definition ret {S A} (a : A) : M S A := fun s => (Ok a, s).

Definition throw {S A} (e : Exn) : M S A := fun s => (Throw e, s).

Definition bind {S A B} (m : M S A) (k : A -> M S B) : M S B :=
  fun s =>
    match m s with
    | (Ok a, s') => k a s'
    | (Throw e, s') => (Throw e, s')
    end.

Definition get {S} : M S S := fun s => (Ok s, s).

Definition modify {S} (f : S -> S) : M S unit := fun s => (Ok tt, f s).

(** [try { m } catch (err) { h err }]. *)
Definition try_catch {S A} (m : M S A) (h : Exn -> M S A) : M S A :=
  fun s =>
    match m s with
    | (Ok a, s') => (Ok a, s')
    | (Throw e, s') => h e s'
    end.

(** Run a computation on one component of a larger state. *)
Definition zoom {S T A} (proj : T -> S) (upd : S -> T -> T) (m : M S A) : M T A :=
  fun t => let '(r, s') := m (proj t) in (r, upd s' t).

(** A value that must be defined: [None] throws. *)
Definition defined {S A} (e : Exn) (o : option A) : M S A :=
  match o with
  | Some a => ret a
  | None => throw e
  end.

(** A result that is already known, as a computation. *)
Definition lift {S A} (r : Result A) : M S A := fun s => (r, s).

Definition is_ok {A} (r : Result A) : bool :=
  match r with Ok _ => true | Throw _ => false end.

End Effect.

Declare Scope js_scope.
Notation "'let*' x ':=' c 'in' k" := (Effect.bind c (fun x => k))
  (at level 10, x name, c at level 100, k at level 200) : js_scope.
Notation "c ';;;' k" := (Effect.bind c (fun _ => k))
  (at level 100, k at level 200, right associativity) : js_scope.
Local Open Scope js_scope.

(** ** The browser: storage, randomness, network *)

Module Browser.
Import JS Effect.

Definition Bytes : Type := list Byte.byte.

(** [TextEncoder.encode]. *)
Definition utf8 (s : string) : Bytes := list_byte_of_string s.

(** A [CryptoKey] object: an opaque handle. *)
Inductive CryptoKey : Type :=
| PublicKey (id : N)
| PrivateKey (id : N).

Record CryptoKeyPair : Type := mkKeyPair {
  publicKey : CryptoKey;
  privateKey : CryptoKey
}.

(** [crypto.subtle].  A [None] result is a rejected promise.  Key
    generation draws from the platform's randomness, here the number of
    draws made so far. *)
Record SubtleCrypto : Type := mkSubtle {
  generateKey : nat -> option CryptoKeyPair;
  exportKey : CryptoKey -> option Bytes;
  sign : CryptoKey -> Bytes -> option Bytes;
  digest : Bytes -> option Bytes
}.

(** The global [crypto]; members that the context does not expose are
    [None]. *)
Record Crypto : Type := mkCrypto {
  subtle : option SubtleCrypto;
  randomUUID : option (nat -> string)
}.

(** The blinding context the VOPRF library hands back from [blind]. *)
Record FinData : Type := mkFinData {
  fd_input : Bytes;
  fd_blind : Bytes
}.

(** A deserialized [Evaluation]. *)
Record Evaluation : Type := mkEvaluation {
  ev_element : Bytes
}.

(** A parsed URL. *)
Record URL : Type := mkURL {
  pathname : string;
  search : string;
  hash : string
}.

(** The body of the POST to the issuer and the [RequestInit] given to the
    proxy call. *)
Record IssueCall : Type := mkIssueCall {
  ic_url : string;
  ic_evalReqB64 : string
}.

Record RequestInit : Type := mkRequestInit {
  ri_method : option string;
  ri_headers : Headers;
  ri_body : option string
}.

Record ProxyCall : Type := mkProxyCall {
  pc_url : string;
  pc_init : RequestInit
}.

Inductive NetCall : Type :=
| CallIssuer (c : IssueCall)
| CallProxy (c : ProxyCall).

(** Everything the page cannot change: the platform's capabilities, the
    libraries, and the servers.  The servers' answer may depend on how many
    network calls were made before.  [storage_accepts] says whether
    [localStorage], holding what it holds, takes one more write; when it
    does not, [setItem] throws. *)
Record Env : Type := mkEnv {
  crypto : option Crypto;
  indexedDB_opens : bool;
  storage_accepts : gmap string string -> string -> string -> bool;
  origin : string;
  parseURL : string -> string -> option URL;
  btoa : Bytes -> string;
  atob : string -> option Bytes;
  stringify_bytes : Bytes -> string;
  parse_bytes : string -> option Bytes;
  voprf_blind : nat -> Bytes -> option (FinData * Bytes);
  voprf_deserialize : Bytes -> option Evaluation;
  voprf_finalize : FinData -> Evaluation -> option (list Bytes);
  issuer : nat -> IssueCall -> FetchOutcome;
  proxy : nat -> ProxyCall -> FetchOutcome
}.

(** The [identity] object store: the two keys the code reads and writes. *)
Record IdentityStore : Type := mkIdentityStore {
  idb_publicKey : option Bytes;
  idb_privateKey : option CryptoKey
}.

Definition empty_store : IdentityStore :=
  {| idb_publicKey := None; idb_privateKey := None |}.

(** The IndexedDB database [scopeblind], version 1. *)
Inductive Database : Type :=
| NoDatabase
| NoObjectStore
| Store (s : IdentityStore).

(** The page's mutable surroundings.  [clock] is wall-clock time; [draws]
    counts the random values drawn; [calls] logs the network calls, latest
    last. *)
Record State : Type := mkState {
  localStorage : gmap string string;
  database : Database;
  draws : nat;
  calls : list NetCall;
  clock : N
}.

Definition set_localStorage (f : gmap string string -> gmap string string) (b : State) : State :=
  {| localStorage := f (localStorage b); database := database b;
     draws := draws b; calls := calls b; clock := clock b |}.

Definition set_database (d : Database) (b : State) : State :=
  {| localStorage := localStorage b; database := d;
     draws := draws b; calls := calls b; clock := clock b |}.

Definition set_draws (n : nat) (b : State) : State :=
  {| localStorage := localStorage b; database := database b;
     draws := n; calls := calls b; clock := clock b |}.

Definition set_calls (l : list NetCall) (b : State) : State :=
  {| localStorage := localStorage b; database := database b;
     draws := draws b; calls := l; clock := clock b |}.

Definition set_clock (t : N) (b : State) : State :=
  {| localStorage := localStorage b; database := database b;
     draws := draws b; calls := calls b; clock := t |}.

(** The calls to the issuer, and to the proxy, among the logged calls. *)
Definition issuer_calls (l : list NetCall) : list IssueCall :=
  flat_map (fun c => match c with CallIssuer i => [i] | CallProxy _ => [] end) l.

Definition proxy_calls (l : list NetCall) : list ProxyCall :=
  flat_map (fun c => match c with CallProxy x => [x] | CallIssuer _ => [] end) l.

(** [localStorage.getItem] and [localStorage.setItem]; the latter throws
    a [QuotaExceededError] when the storage does not take the write. *)
Definition getItem (key : string) : M State (option string) :=
  fun b => (Ok (localStorage b !! key), b).

Definition setItem (env : Env) (key value : string) : M State unit :=
  fun b =>
    if storage_accepts env (localStorage b) key value
    then (Ok tt, set_localStorage (fun m => <[key := value]> m) b)
    else (Throw (DOMException "QuotaExceededError"), b).

(** One draw from the platform's randomness. *)
Definition draw : M State nat :=
  fun b => (Ok (draws b), set_draws (S (draws b)) b).

(** [crypto.randomUUID()]: it throws when [crypto] or the method is
    missing. *)
Definition crypto_randomUUID (env : Env) : M State string :=
  match crypto env with
  | None => throw (ReferenceError "crypto is not defined")
  | Some c =>
      match randomUUID c with
      | None => throw (TypeError "crypto.randomUUID is not a function")
      | Some gen => let* n := draw in ret (gen n)
      end
  end.

(** [crypto.subtle], dereferenced. *)
Definition crypto_subtle (env : Env) : M State SubtleCrypto :=
  match crypto env with
  | None => throw (ReferenceError "crypto is not defined")
  | Some c => defined (TypeError "crypto.subtle is undefined") (subtle c)
  end.

(** [window.crypto?.subtle]. *)
Definition window_crypto_subtle (env : Env) : option SubtleCrypto :=
  match crypto env with
  | None => None
  | Some c => subtle c
  end.

End Browser.

(** ** The VOPRF client: [packages/widget/src/voprf.ts] *)

Module Voprf.
Import JS Effect Browser.

(** [ScopeBlindVoprfClient]: the library client is stateless; the object's
    own state is [finData], [undefined] until the first blind. *)
Record Client : Type := mkClient {
  finData : option FinData
}.

Definition new_client : Client := {| finData := None |}.

(** [generateBlindRequest(input)]: blinds with fresh randomness (the draw
    number [n]), stores the context, returns the serialized request. *)
Definition generateBlindRequest (env : Env) (n : nat) (input : string) : M Client Bytes :=
  match voprf_blind env n (utf8 input) with
  | None => throw (Error "blind failed")
  | Some (fd, evalReq) =>
      modify (fun _ => {| finData := Some fd |}) ;;;
      ret evalReq
  end.

(** [finalize(evaluation)]: returns [tokens[0]], which is [undefined]
    ([None]) for an empty array. *)
Definition finalize (env : Env) (evaluation : Bytes) : M Client (option Bytes) :=
  let* evalObj := defined (Error "deserialize failed") (voprf_deserialize env evaluation) in
  let* c := get in
  let* fd := defined (TypeError "finData is undefined") (finData c) in
  let* tokens := defined (Error "finalize failed") (voprf_finalize env fd evalObj) in
  ret (hd_error tokens).

(** [generateSpendProof(token, data)]: base64 of the SHA-256 digest of the
    token followed by the encoded data. *)
Definition generateSpendProof (env : Env) (token : Bytes) (data : string) : M State string :=
  let combined := token ++ utf8 data in
  let* s := crypto_subtle env in
  let* hashBuffer := defined (Error "digest failed") (digest s combined) in
  ret (btoa env hashBuffer).

End Voprf.

(** ** Holder binding: [packages/widget/src/holder-binding.ts] *)

Module HolderBinding.
Import JS Effect Browser.

Inductive IdentityType : Type := webcrypto | fallback.

Record DeviceIdentity : Type := mkDeviceIdentity {
  type : IdentityType;
  di_publicKey : option Bytes;
  deviceId : option string
}.

(** [openDB(name, 1, options)]: opening fails when IndexedDB is not usable;
    a database that does not exist yet is created, and only then does the
    [upgrade] callback, when given, create the object store. *)
Definition openDB (env : Env) (upgrade : bool) : M State unit :=
  if indexedDB_opens env then
    let* b := get in
    match database b with
    | NoDatabase =>
        modify (set_database (if upgrade then Store empty_store else NoObjectStore))
    | _ => ret tt
    end
  else throw (DOMException "indexedDB.open failed").

(** A transaction on the [identity] store; it throws when the store does
    not exist. *)
Definition with_store : M State IdentityStore :=
  let* b := get in
  match database b with
  | Store s => ret s
  | _ => throw (DOMException "NotFoundError")
  end.

Definition db_get_publicKey : M State (option Bytes) :=
  let* s := with_store in ret (idb_publicKey s).

Definition db_get_privateKey : M State (option CryptoKey) :=
  let* s := with_store in ret (idb_privateKey s).

Definition db_put_publicKey (v : Bytes) : M State unit :=
  let* s := with_store in
  modify (set_database (Store {| idb_publicKey := Some v; idb_privateKey := idb_privateKey s |})).

Definition db_put_privateKey (k : CryptoKey) : M State unit :=
  let* s := with_store in
  modify (set_database (Store {| idb_publicKey := idb_publicKey s; idb_privateKey := Some k |})).

Definition getWebCryptoIdentity (env : Env) : M State DeviceIdentity :=
  openDB env true ;;;
  let* stored := db_get_publicKey in
  let* publicKeyBytes :=
    match stored with
    | Some bytes => ret bytes
    | None =>
        let* s := crypto_subtle env in
        let* n := draw in
        let* keypair := defined (Error "generateKey failed") (generateKey s n) in
        let* spki := defined (Error "exportKey failed") (exportKey s (publicKey keypair)) in
        db_put_publicKey spki ;;;
        db_put_privateKey (privateKey keypair) ;;;
        ret spki
    end in
  ret {| type := webcrypto; di_publicKey := Some publicKeyBytes; deviceId := None |}.

Definition STORAGE_KEY : string := "sb_device_id".

Definition getFallbackIdentity (env : Env) : M State DeviceIdentity :=
  let* stored := getItem STORAGE_KEY in
  let* id :=
    if truthy stored then ret (or_else stored "")
    else
      let* fresh := crypto_randomUUID env in
      setItem env STORAGE_KEY fresh ;;;
      ret fresh in
  ret {| type := fallback; di_publicKey := None; deviceId := Some id |}.

Definition getOrCreateDeviceIdentity (env : Env) : M State DeviceIdentity :=
  match window_crypto_subtle env with
  | Some _ => try_catch (getWebCryptoIdentity env) (fun _ => getFallbackIdentity env)
  | None => getFallbackIdentity env
  end.

(** The body of the [try] in [signRequest]. *)
Definition signRequest_try (env : Env) (method path : string) (body : option string)
  : M State (option string) :=
  openDB env false ;;;
  let* key := db_get_privateKey in
  match key with
  | None => ret None
  | Some privateKey =>
      let canonical := method +:+ ":" +:+ path +:+ ":" +:+ or_else body "" in
      let* s := crypto_subtle env in
      let* signature := defined (Error "sign failed") (sign s privateKey (utf8 canonical)) in
      ret (Some (btoa env signature))
  end.

(** [signRequest(method, path, body)]: any exception becomes [null]. *)
Definition signRequest (env : Env) (method path : string) (body : option string)
  : M State (option string) :=
  try_catch (signRequest_try env method path body) (fun _ => ret None).

(** The order of the two writes in [getWebCryptoIdentity] keeps this true
    of the store: there is no private key without a public key. *)
Definition keys_paired (b : State) : Prop :=
  match database b with
  | Store s => idb_publicKey s = None -> idb_privateKey s = None
  | _ => True
  end.

End HolderBinding.

(** ** The widget's user interface: [packages/widget/src/ui.ts] *)

Module UI.

(** A DOM element the widget created, by its class list. *)
Record Element : Type := mkElement {
  classList : list string
}.

Record WidgetUI : Type := mkWidgetUI {
  badge : option Element;
  modal : option Element
}.

Definition new_ui : WidgetUI := {| badge := None; modal := None |}.

(** [classList.add(c)]. *)
Definition classList_add (c : string) (e : Element) : Element :=
  if existsb (String.eqb c) (classList e) then e
  else {| classList := classList e ++ [c] |}.

Definition showBadge (ui : WidgetUI) : WidgetUI :=
  match badge ui with
  | Some _ => ui
  | None => {| badge := Some {| classList := ["sb-badge"] |}; modal := modal ui |}
  end.

Definition createModal (ui : WidgetUI) : WidgetUI :=
  {| badge := badge ui; modal := Some {| classList := ["sb-modal-overlay"] |} |}.

Definition showQuotaExceeded (ui : WidgetUI) : WidgetUI :=
  let ui' := match modal ui with None => createModal ui | Some _ => ui end in
  {| badge := badge ui'; modal := option_map (classList_add "visible") (modal ui') |}.

(** [classList.remove(c)]. *)
Definition classList_remove (c : string) (e : Element) : Element :=
  {| classList := List.filter (fun x => negb (String.eqb c x)) (classList e) |}.

(** The click listener [createModal] puts on the close button. *)
Definition click_close (ui : WidgetUI) : WidgetUI :=
  {| badge := badge ui; modal := option_map (classList_remove "visible") (modal ui) |}.

(** The click listener [createModal] puts on the overlay: it closes only
    when the click landed on the overlay itself ([e.target === this.modal]),
    not on the dialog inside it. *)
Definition click_overlay (target_is_overlay : bool) (ui : WidgetUI) : WidgetUI :=
  if target_is_overlay then click_close ui else ui.

(** The quota-exceeded modal is showing. *)
Definition quota_modal_visible (ui : WidgetUI) : bool :=
  match modal ui with
  | Some e => existsb (String.eqb "visible") (classList e)
  | None => false
  end.

End UI.

(** ** The widget: [packages/widget/src/index.ts] *)

Module Widget.
Import JS Effect Browser HolderBinding.

Record ScopeBlindConfig : Type := mkConfig {
  siteId : string;
  issuerUrl : option string;
  proxyUrl : option string;
  showBadge : option bool
}.

Record ScopeBlindWidget : Type := mkWidget {
  config : ScopeBlindConfig;
  voprfClient : Voprf.Client;
  token : option Bytes;
  ui : UI.WidgetUI;
  deviceIdentity : option DeviceIdentity
}.

(** [new ScopeBlindWidget()]. *)
Definition new_widget : ScopeBlindWidget :=
  {| config := {| siteId := ""; issuerUrl := None; proxyUrl := None; showBadge := None |};
     voprfClient := Voprf.new_client;
     token := None;
     ui := UI.new_ui;
     deviceIdentity := None |}.

(** The widget instance together with the page it lives in. *)
Record Page : Type := mkPage {
  widget : ScopeBlindWidget;
  browser : State
}.

Definition set_config (c : ScopeBlindConfig) (w : ScopeBlindWidget) : ScopeBlindWidget :=
  {| config := c; voprfClient := voprfClient w; token := token w;
     ui := ui w; deviceIdentity := deviceIdentity w |}.

Definition set_voprfClient (c : Voprf.Client) (w : ScopeBlindWidget) : ScopeBlindWidget :=
  {| config := config w; voprfClient := c; token := token w;
     ui := ui w; deviceIdentity := deviceIdentity w |}.

Definition set_token (t : option Bytes) (w : ScopeBlindWidget) : ScopeBlindWidget :=
  {| config := config w; voprfClient := voprfClient w; token := t;
     ui := ui w; deviceIdentity := deviceIdentity w |}.

Definition set_ui (u : UI.WidgetUI) (w : ScopeBlindWidget) : ScopeBlindWidget :=
  {| config := config w; voprfClient := voprfClient w; token := token w;
     ui := u; deviceIdentity := deviceIdentity w |}.

Definition set_deviceIdentity (d : option DeviceIdentity) (w : ScopeBlindWidget) : ScopeBlindWidget :=
  {| config := config w; voprfClient := voprfClient w; token := token w;
     ui := ui w; deviceIdentity := d |}.

Definition set_widget (w : ScopeBlindWidget) (p : Page) : Page :=
  {| widget := w; browser := browser p |}.

Definition set_browser (b : State) (p : Page) : Page :=
  {| widget := widget p; browser := b |}.

(** Code that only touches the browser, the widget's fields, or the VOPRF
    client, run on the page. *)
Definition in_browser {A} (m : M State A) : M Page A := zoom browser set_browser m.

Definition update (f : ScopeBlindWidget -> ScopeBlindWidget) : M Page unit :=
  modify (fun p => set_widget (f (widget p)) p).

Definition in_client {A} (m : M Voprf.Client A) : M Page A :=
  zoom (fun p => voprfClient (widget p)) (fun c p => set_widget (set_voprfClient c (widget p)) p) m.

(** An [undefined] interpolated into a template literal. *)
Definition interpolate (v : option string) : string :=
  match v with Some s => s | None => "undefined" end.

Fixpoint replace_char (a b : ascii) (s : string) : string :=
  match s with
  | EmptyString => EmptyString
  | String c r => String (if Ascii.eqb c a then b else c) (replace_char a b r)
  end.

(** [s.replace(/=+$/, '')]. *)
Fixpoint strip_padding (s : string) : string :=
  match s with
  | EmptyString => EmptyString
  | String c r =>
      let r' := strip_padding r in
      if Ascii.eqb c "="%char && String.eqb r' "" then EmptyString else String c r'
  end.

(** Base64 to base64url without padding, and the way back as the widget
    does it (the padding is not restored). *)
Definition base64url_encode (env : Env) (b : Bytes) : string :=
  strip_padding (replace_char "/" "_" (replace_char "+" "-" (btoa env b))).

Definition base64url_decode (env : Env) (s : string) : option Bytes :=
  atob env (replace_char "_" "/" (replace_char "-" "+" s)).

Definition token_key (site : string) : string := "sb_token_" +:+ site.

Definition string_of_status (n : Z) : string :=
  DecimalString.NilZero.string_of_int (Z.to_int n).

(** [fetch] as the page sees it: the call is logged, a rejection throws. *)
Definition fetch_issuer (env : Env) (c : IssueCall) : M State Response :=
  let* b := get in
  modify (set_calls (calls b ++ [CallIssuer c])) ;;;
  match issuer env (length (calls b)) c with
  | Resolved r => ret r
  | Rejected msg => throw (TypeError msg)
  end.

Definition fetch_proxy (env : Env) (c : ProxyCall) : M State Response :=
  let* b := get in
  modify (set_calls (calls b ++ [CallProxy c])) ;;;
  match proxy env (length (calls b)) c with
  | Resolved r => ret r
  | Rejected msg => throw (TypeError msg)
  end.

(** [const { evalB64 } = await response.json()] followed by the first
    [evalB64.replace]: anything but an object with a string member
    throws. *)
Definition evalB64_of (r : Response) : Result string :=
  match json r with
  | None => Throw (SyntaxError "Unexpected token")
  | Some (JObj fields) =>
      match find (fun kv => String.eqb (fst kv) "evalB64") fields with
      | Some (_, JStr s) => Ok s
      | _ => Throw (TypeError "evalB64.replace is not a function")
      end
  | Some _ => Throw (TypeError "evalB64.replace is not a function")
  end.

Definition read_evalB64 (r : Response) : M Page string :=
  match evalB64_of r with
  | Ok s => ret s
  | Throw e => throw e
  end.

(** The body of the [try] in [ensureToken]. *)
Definition mint (env : Env) : M Page Bytes :=
  let* input := in_browser (crypto_randomUUID env) in
  let* n := in_browser draw in
  let* request := in_client (Voprf.generateBlindRequest env n input) in
  let evalReqB64 := base64url_encode env request in
  let* p := get in
  let* response :=
    in_browser (fetch_issuer env
      {| ic_url := interpolate (issuerUrl (config (widget p))) +:+ "/issue";
         ic_evalReqB64 := evalReqB64 |}) in
  (if negb (ok response)
   then throw (Error ("Failed to issue token: " +:+ string_of_status (status response)
                      +:+ " - " +:+ text response))
   else ret tt) ;;;
  let* evalB64 := read_evalB64 response in
  let* evalBytes := defined (DOMException "InvalidCharacterError") (base64url_decode env evalB64) in
  let* finalized := in_client (Voprf.finalize env evalBytes) in
  update (set_token finalized) ;;;
  let* t := defined (TypeError "undefined is not iterable") finalized in
  let* p := get in
  in_browser (setItem env (token_key (siteId (config (widget p)))) (stringify_bytes env t)) ;;;
  ret t.

Definition ensureToken (env : Env) : M Page Bytes :=
  let* p := get in
  match token (widget p) with
  | Some t => ret t
  | None =>
      let* stored := in_browser (getItem (token_key (siteId (config (widget p))))) in
      if truthy stored then
        let* t := defined (SyntaxError "JSON.parse") (parse_bytes env (or_else stored "")) in
        update (set_token (Some t)) ;;;
        ret t
      else
        try_catch (mint env) (fun err => throw err)
  end.

Definition default_issuer : string := "https://issuer.scopeblind.com".
Definition default_proxy : string := "https://proxy.scopeblind.com".

Definition init (env : Env) (c : ScopeBlindConfig) : M Page unit :=
  update (set_config
    {| siteId := siteId c;
       issuerUrl := Some (or_else (issuerUrl c) default_issuer);
       proxyUrl := Some (or_else (proxyUrl c) default_proxy);
       showBadge := Some (match showBadge c with Some false => false | _ => true end) |}) ;;;
  let* di := in_browser (getOrCreateDeviceIdentity env) in
  update (set_deviceIdentity (Some di)) ;;;
  let* p := get in
  (match showBadge (config (widget p)) with
   | Some true => update (fun w => set_ui (UI.showBadge (ui w)) w)
   | _ => ret tt
   end) ;;;
  ensureToken env ;;;
  ret tt.

(** [headers.set(name, value)] and [headers.append(name, value)] as the
    page calls them: the value is normalised first, and a name or a value
    that is not valid throws a [TypeError]. *)
Definition set_header (name value : string) (h : Headers) : Result Headers :=
  let v := normalize_value value in
  if header_name name && header_value v then Ok (headers_set name v h)
  else Throw (TypeError "Invalid header").

Definition append_header (name value : string) (h : Headers) : Result Headers :=
  let v := normalize_value value in
  if header_name name && header_value v then Ok (headers_append name v h)
  else Throw (TypeError "Invalid header").

(** [new Headers(init)]: every pair of [init] is appended, in order, up to
    the first one that throws. *)
Definition headers_new (init : list (string * string)) : Result Headers :=
  fold_left
    (fun acc kv =>
       match acc with
       | Ok h => append_header (fst kv) (snd kv) h
       | Throw e => Throw e
       end)
    init (Ok []).

(** The holder-binding header: the signature, or the device identifier of
    a fallback identity. *)
Definition bind_holder (signature : option string) (di : option DeviceIdentity)
    (h : Headers) : Result Headers :=
  if truthy signature then set_header "X-ScopeBlind-Signature" (or_else signature "") h
  else
    match di with
    | Some {| type := fallback; deviceId := id |} =>
        if truthy id then set_header "X-ScopeBlind-Device" (or_else id "") h else Ok h
    | _ => Ok h
    end.

Definition quota_status (n : Z) : bool := (n =? 429) || (n =? 402).

(** [fetch] from the point where [method] and [path] are known up to the
    network call: the spend proof, the target URL and the headers.  The
    [headers] member of [options] is what the caller gave, the one of the
    result holds the entries of the [Headers] object built from it. *)
Definition request_for (env : Env) (options : RequestInit) (path : string) : M Page ProxyCall :=
  let method := or_else (ri_method options) "GET" in
  let bodyString := if truthy (ri_body options) then ri_body options else None in
  let* p := get in
  let* tok := defined (TypeError "token is null") (token (widget p)) in
  let* proof := in_browser (Voprf.generateSpendProof env tok (method +:+ ":" +:+ path)) in
  let targetUrl :=
    interpolate (proxyUrl (config (widget p))) +:+ "/" +:+ siteId (config (widget p)) +:+ path in
  let* h0 := lift (headers_new (ri_headers options)) in
  let* h1 := lift (set_header "X-ScopeBlind-Proof" proof h0) in
  let* h2 := lift (set_header "X-ScopeBlind-Site" (siteId (config (widget p))) h1) in
  let* signature := in_browser (signRequest env method path bodyString) in
  let* headers := lift (bind_holder signature (deviceIdentity (widget p)) h2) in
  ret {| pc_url := targetUrl;
         pc_init := {| ri_method := ri_method options;
                       ri_headers := headers;
                       ri_body := ri_body options |} |}.

(** The body of the [try] in [fetch], up to the network call. *)
Definition prepare (env : Env) (url : string) (options : RequestInit) : M Page ProxyCall :=
  ensureToken env ;;;
  let* u := defined (TypeError "Invalid URL") (parseURL env url (origin env)) in
  request_for env options (pathname u).

Definition fetch (env : Env) (url : string) (options : RequestInit) : M Page Response :=
  try_catch
    (let* call := prepare env url options in
     let* response := in_browser (fetch_proxy env call) in
     (if quota_status (status response)
      then update (fun w => set_ui (UI.showQuotaExceeded (ui w)) w)
      else ret tt) ;;;
     ret response)
    (fun err => throw err).

(** [getToken()]: the token in standard base64. *)
Definition getToken (env : Env) : M Page string :=
  let* t := ensureToken env in
  ret (btoa env t).

(** The [data-site], [data-proxy] and [data-badge] attributes of the script
    tag; an attribute that is not there is [None]. *)
Record ScriptTag : Type := mkScriptTag {
  data_site : option string;
  data_proxy : option string;
  data_badge : option string
}.

(** The configuration the module builds from the script tag, when the tag
    names a site. *)
Definition script_config (tag : ScriptTag) : option ScopeBlindConfig :=
  if truthy (data_site tag) then
    Some {| siteId := or_else (data_site tag) "";
            issuerUrl := None;
            proxyUrl := if truthy (data_proxy tag) then data_proxy tag else None;
            showBadge := Some (match data_badge tag with
                               | Some v => negb (String.eqb v "false")
                               | None => true
                               end) |}
  else None.

(** The module's top level: [document.currentScript] may be [null]; the
    promise of [init] is not awaited, so a rejection does not propagate.
    (On success the module goes on to register the listeners of
    [initDataAttributes].) *)
Definition auto_init (env : Env) (script : option ScriptTag) : M Page unit :=
  match script with
  | Some tag =>
      match script_config tag with
      | Some c => try_catch (init env c) (fun _ => ret tt)
      | None => ret tt
      end
  | None => ret tt
  end.

(** The custom event a [data-scopeblind-action] element dispatches. *)
Inductive ActionEvent : Type :=
| scopeblind_success (response : Response) (action cost : string)
| scopeblind_error (error : Exn) (action cost : string).

(** The click listener of [initDataAttributes] for an element whose action
    is [action]; [cost] is the text of [parseInt(...)] of its cost
    attribute. *)
Definition action_click (env : Env) (action cost : string) : M Page ActionEvent :=
  try_catch
    (let* response :=
       fetch env ("/api/" +:+ action)
         {| ri_method := Some "POST";
            ri_headers := [("X-ScopeBlind-Cost", cost)];
            ri_body := None |} in
     ret (scopeblind_success response action cost))
    (fun err => ret (scopeblind_error err action cost)).

End Widget.

(** ** Sample environments

    Concrete stand-ins for the platform and the servers, used to run the
    definitions above on examples. *)

Module Sample.
Import JS Effect Browser.

(** *** Gateway *)

(** The characters a URL parser leaves alone in a path: letters, digits,
    slashes, hyphens and underscores. *)
Definition plain_path_char (c : ascii) : bool :=
  let n := N_of_ascii c in
  ((48 <=? n) && (n <=? 57) || (65 <=? n) && (n <=? 90) || (97 <=? n) && (n <=? 122)
   || (n =? 47) || (n =? 45) || (n =? 95))%N.

(** A stand-in for the URL parser on the inputs of the samples: for a
    base of the form [https://host] and an absolute path of such
    characters it gives the URL the platform's parser gives.  It knows no
    other input, where the platform's parser would decode, re-encode or
    normalise. *)
Definition new_URL (input base : string) : option Gateway.URL :=
  let host := substring 8 (String.length base - 8) base in
  if startsWith "https://" base && negb (String.eqb host "") && negb (includes "/" host)
     && startsWith "/" input && negb (startsWith "//" input) && all_chars plain_path_char input
  then Some {| Gateway.url_origin := base; Gateway.url_host := host;
               Gateway.url_pathname := input; Gateway.url_search := "";
               Gateway.url_hash := "" |}
  else None.

Definition bindings : Gateway.Bindings :=
  {| Gateway.BACKEND_URL := Some "https://api.example.com";
     Gateway.SCOPEBLIND_VERIFIER_URL := None;
     Gateway.SCOPEBLIND_SECRET := None |}.

Definition post_chat : Gateway.Request :=
  {| Gateway.method := "POST";
     Gateway.path := "/api/chat";
     Gateway.search := "?stream=1";
     Gateway.headers :=
       [("content-type", "application/json");
        ("x-scopeblind-proof", "cHJvb2Y=");
        ("x-scopeblind-site", "site_42")];
     Gateway.body := Some "{}" |}.

(** A GET request that carries content. *)
Definition get_with_body : Gateway.Request :=
  {| Gateway.method := "GET";
     Gateway.path := "/api/search";
     Gateway.search := "";
     Gateway.headers := [("x-scopeblind-proof", "cHJvb2Y=")];
     Gateway.body := Some "q=rocq" |}.

Definition plain (code : Z) (body : string) (parsed : option JSON) : Response :=
  {| status := code; statusText := ""; resp_headers := []; text := body; json := parsed |}.

(** The text of the JSON object with the single member [allowed]. *)
Definition allowed_text (b : bool) : string :=
  let dq := String (ascii_of_nat 34) EmptyString in
  "{" +:+ dq +:+ "allowed" +:+ dq +:+ ":" +:+ (if b then "true" else "false") +:+ "}".

Definition verifier_allows (_ : Gateway.VerifyCall) : FetchOutcome :=
  Resolved (plain 200 (allowed_text true) (Some (JObj [("allowed", JBool true)]))).

Definition verifier_denies_with_200 (_ : Gateway.VerifyCall) : FetchOutcome :=
  Resolved (plain 200 (allowed_text false) (Some (JObj [("allowed", JBool false)]))).

Definition verifier_rejects (_ : Gateway.VerifyCall) : FetchOutcome :=
  Resolved (plain 401 "nullifier already spent" None).

(** A verifier that answers 200 with a body that is not JSON. *)
Definition verifier_says_OK (_ : Gateway.VerifyCall) : FetchOutcome :=
  Resolved (plain 200 "OK" None).

Definition backend_echo (c : Gateway.BackendCall) : FetchOutcome :=
  Resolved (plain 200 (Gateway.url_pathname (Gateway.bc_url c)) None).

(** The targets the sample parser gives for the two sample requests. *)
Definition chat_target : Gateway.URL :=
  {| Gateway.url_origin := "https://api.example.com"; Gateway.url_host := "api.example.com";
     Gateway.url_pathname := "/api/chat"; Gateway.url_search := ""; Gateway.url_hash := "" |}.

Definition search_target : Gateway.URL :=
  {| Gateway.url_origin := "https://api.example.com"; Gateway.url_host := "api.example.com";
     Gateway.url_pathname := "/api/search"; Gateway.url_search := ""; Gateway.url_hash := "" |}.

(** *** Widget *)

Definition subtle : SubtleCrypto :=
  {| generateKey := fun n => Some {| publicKey := PublicKey (N.of_nat n);
                                    privateKey := PrivateKey (N.of_nat n) |};
     exportKey := fun _ => Some (utf8 "spki");
     sign := fun _ data => Some data;
     digest := fun data => Some data |}.

Definition uuid (n : nat) : string := String (ascii_of_nat (97 + n)) "-uuid".

Definition secure_crypto : Crypto :=
  {| Browser.subtle := Some subtle; randomUUID := Some uuid |}.

(** The global [crypto] of a page served over plain HTTP: neither
    [subtle] nor [randomUUID] is exposed. *)
Definition insecure_crypto : Crypto :=
  {| Browser.subtle := None; randomUUID := None |}.

Fixpoint split_at (c : ascii) (s : string) : string * string :=
  match s with
  | EmptyString => (EmptyString, EmptyString)
  | String a r =>
      if Ascii.eqb a c then (EmptyString, s)
      else let '(h, t) := split_at c r in (String a h, t)
  end.

Definition parse_path_and_query (url base : string) : option URL :=
  if startsWith "/" url
  then let '(p, q) := split_at "?" url in Some {| pathname := p; search := q; hash := "" |}
  else None.

(** An issuer whose evaluation differs from one call to the next. *)
Definition issuer_up (n : nat) (_ : IssueCall) : FetchOutcome :=
  Resolved (plain 200 "" (Some (JObj [("evalB64", JStr (String (ascii_of_nat (65 + n)) "-eval"))]))).


Definition proxy_429 (_ : nat) (_ : ProxyCall) : FetchOutcome :=
  Resolved (plain 429 "quota exceeded" None).

Definition env : Env :=
  {| crypto := Some secure_crypto;
     indexedDB_opens := true;
     storage_accepts := fun _ _ _ => true;
     origin := "https://shop.example";
     parseURL := parse_path_and_query;
     btoa := string_of_list_byte;
     atob := fun s => Some (list_byte_of_string s);
     stringify_bytes := string_of_list_byte;
     parse_bytes := fun s => Some (list_byte_of_string s);
     voprf_blind := fun n input =>
       Some ({| fd_input := input; fd_blind := utf8 (uuid n) |}, input ++ utf8 (uuid n));
     voprf_deserialize := fun b => Some {| ev_element := b |};
     voprf_finalize := fun fd ev => Some [fd_input fd ++ ev_element ev];
     issuer := issuer_up;
     proxy := proxy_429 |}.

Definition with_crypto (c : option Crypto) (e : Env) : Env :=
  {| crypto := c; indexedDB_opens := indexedDB_opens e;
     storage_accepts := storage_accepts e; origin := origin e;
     parseURL := parseURL e; btoa := btoa e; atob := atob e;
     stringify_bytes := stringify_bytes e; parse_bytes := parse_bytes e;
     voprf_blind := voprf_blind e; voprf_deserialize := voprf_deserialize e;
     voprf_finalize := voprf_finalize e; issuer := issuer e; proxy := proxy e |}.



(** A platform without the global [crypto]. *)
Definition env_without_crypto : Env := with_crypto None env.

(** A page served over plain HTTP. *)
Definition env_insecure : Env := with_crypto (Some insecure_crypto) env.

(** A page on its first visit: empty storage, no database. *)
Definition fresh_browser : State :=
  {| localStorage := ∅; database := NoDatabase; draws := 0%nat; calls := []; clock := 0%N |}.

Definition site_42 : Widget.ScopeBlindConfig :=
  {| Widget.siteId := "site_42"; Widget.issuerUrl := None;
     Widget.proxyUrl := None; Widget.showBadge := None |}.

Definition fresh_page : Widget.Page :=
  {| Widget.widget := Widget.new_widget; Widget.browser := fresh_browser |}.

(** The page once [init] has stored the configuration, before any token
    is minted. *)
Definition configured_page : Widget.Page :=
  {| Widget.widget :=
       Widget.set_config
         {| Widget.siteId := "site_42";
            Widget.issuerUrl := Some Widget.default_issuer;
            Widget.proxyUrl := Some Widget.default_proxy;
            Widget.showBadge := Some true |}
         Widget.new_widget;
     Widget.browser := fresh_browser |}.

(** The same page at a later time. *)
Definition later (t : N) (p : Widget.Page) : Widget.Page :=
  Widget.set_browser (set_clock t (Widget.browser p)) p.

(** The page after [init] with the site [site_42]. *)
Definition ready_page : Widget.Page := snd (Widget.init env site_42 fresh_page).

Definition post_options : RequestInit :=
  {| ri_method := Some "POST"; ri_headers := []; ri_body := None |}.

(** What [fetch] sends for the url [/chat?lang=en] on the ready page. *)
Definition chat_call : ProxyCall :=
  {| pc_url := "https://proxy.scopeblind.com/site_42/chat";
     pc_init :=
       {| ri_method := Some "POST";
          ri_headers :=
            [("x-scopeblind-proof", "b-uuidA+evalPOST:/chat");
             ("x-scopeblind-site", "site_42");
             ("x-scopeblind-signature", "POST:/chat:")];
          ri_body := None |} |}.

(** The page after the preparation of that request. *)
Definition chat_page : Widget.Page :=
  snd (Widget.prepare env "/chat?lang=en" post_options ready_page).

(** *** Further samples *)

(** A request whose proof header is there but empty. *)
Definition empty_proof_request : Gateway.Request :=
  {| Gateway.method := "POST";
     Gateway.path := "/api/chat";
     Gateway.search := "";
     Gateway.headers := [("content-type", "application/json"); ("x-scopeblind-proof", "")];
     Gateway.body := Some "{}" |}.

Definition bindings_without_backend : Gateway.Bindings :=
  {| Gateway.BACKEND_URL := None;
     Gateway.SCOPEBLIND_VERIFIER_URL := None;
     Gateway.SCOPEBLIND_SECRET := None |}.

(** A platform with [crypto.randomUUID] but without [crypto.subtle]. *)
Definition no_subtle_crypto : Crypto :=
  {| Browser.subtle := None; randomUUID := Some uuid |}.

Definition env_no_subtle : Env := with_crypto (Some no_subtle_crypto) env.

Definition with_parse_bytes (f : string -> option Bytes) (e : Env) : Env :=
  {| crypto := crypto e; indexedDB_opens := indexedDB_opens e;
     storage_accepts := storage_accepts e; origin := origin e;
     parseURL := parseURL e; btoa := btoa e; atob := atob e;
     stringify_bytes := stringify_bytes e; parse_bytes := f;
     voprf_blind := voprf_blind e; voprf_deserialize := voprf_deserialize e;
     voprf_finalize := voprf_finalize e; issuer := issuer e; proxy := proxy e |}.

(** A [JSON.parse] that rejects what does not start like an array. *)
Definition env_strict_json : Env :=
  with_parse_bytes
    (fun s => if startsWith "[" s then Some (list_byte_of_string s) else None) env.

(** The configured page with something else than a token under the site's
    key. *)
Definition corrupt_page : Widget.Page :=
  Widget.set_browser
    (set_localStorage (fun m => <["sb_token_site_42" := "oops"]> m) fresh_browser)
    configured_page.

Definition site_7 : Widget.ScopeBlindConfig :=
  {| Widget.siteId := "site_7"; Widget.issuerUrl := None;
     Widget.proxyUrl := None; Widget.showBadge := Some false |}.

(** The browser of a page that comes back after a first visit. *)
Definition returning_browser : State := Widget.browser ready_page.



(** Options with headers of the caller: a value with blanks around it, and
    a site header of the caller's own. *)
Definition accept_options : RequestInit :=
  {| ri_method := Some "POST";
     ri_headers := [("Accept", " text/plain "); ("X-ScopeBlind-Site", "elsewhere")];
     ri_body := None |}.

(** What [fetch] sends with these options for the url [/chat?lang=en] on
    the ready page, and the page after the preparation. *)
Definition accept_call : ProxyCall :=
  {| pc_url := "https://proxy.scopeblind.com/site_42/chat";
     pc_init :=
       {| ri_method := Some "POST";
          ri_headers :=
            [("accept", "text/plain");
             ("x-scopeblind-site", "site_42");
             ("x-scopeblind-proof", "b-uuidA+evalPOST:/chat");
             ("x-scopeblind-signature", "POST:/chat:")];
          ri_body := None |} |}.

Definition accept_page : Widget.Page :=
  snd (Widget.prepare env "/chat?lang=en" accept_options ready_page).

End Sample.

(** * Proof automation *)

(** Case analysis on every [match] of the goal, innermost scrutinee first. *)
Ltac crunch :=
  repeat match goal with
         | |- context [match ?x with _ => _ end] =>
             match x with
             | context [match _ with _ => _ end] => fail 1
             | negb ?y => destruct y eqn:?; cbn
             | _ => destruct x eqn:?; cbn
             end
         end.

(** The functions of the holder binding, unfolded down to the state
    transformers. *)
Ltac unfold_holder :=
  unfold HolderBinding.getOrCreateDeviceIdentity, HolderBinding.signRequest in *;
  unfold HolderBinding.getWebCryptoIdentity, HolderBinding.getFallbackIdentity,
    HolderBinding.signRequest_try in *;
  unfold HolderBinding.openDB, HolderBinding.with_store,
    HolderBinding.db_get_publicKey, HolderBinding.db_get_privateKey,
    HolderBinding.db_put_publicKey, HolderBinding.db_put_privateKey,
    Browser.crypto_randomUUID, Browser.crypto_subtle, Browser.window_crypto_subtle,
    Browser.draw, Browser.getItem, Browser.setItem in *;
  unfold Effect.try_catch, Effect.bind, Effect.get, Effect.modify, Effect.defined,
    Effect.ret, Effect.throw in *.

(** * Properties of the gateway *)

Module GatewayFacts.
Import JS Gateway.

Lemma lower_ascii_idem (c : ascii) : lower_ascii (lower_ascii c) = lower_ascii c.
Proof.
  destruct c as [b0 b1 b2 b3 b4 b5 b6 b7].
  destruct b0, b1, b2, b3, b4, b5, b6, b7; reflexivity.
Qed.

Lemma toLowerCase_idem (s : string) : toLowerCase (toLowerCase s) = toLowerCase s.
Proof.
  induction s as [|c s IH]; simpl; [reflexivity|].
  now rewrite lower_ascii_idem, IH.
Qed.

Lemma set_existing_Forall (P : string * string -> Prop) n v seen h :
  P (n, v) -> Forall P h -> Forall P (set_existing n v seen h).
Proof.
  intros Hnv Hh. revert seen.
  induction Hh as [|kv t Hkv Ht IH]; intros seen; simpl; [constructor|].
  destruct (name_is n kv).
  - destruct seen; [apply IH | constructor; [exact Hnv | apply IH]].
  - constructor; [exact Hkv | apply IH].
Qed.

Lemma headers_set_Forall (P : string * string -> Prop) name v h :
  P (toLowerCase name, v) -> Forall P h -> Forall P (headers_set name v h).
Proof.
  intros Hnv Hh. unfold headers_set.
  destruct (existsb _ h).
  - now apply set_existing_Forall.
  - apply Forall_app; split; [exact Hh | now constructor].
Qed.

Lemma copy_headers_from (acc h : Headers) :
  Forall (fun kv => reserved kv = false) acc ->
  Forall (fun kv => reserved kv = false)
    (fold_left
       (fun acc kv => if negb (reserved kv) then headers_set (fst kv) (snd kv) acc else acc)
       h acc).
Proof.
  revert acc. induction h as [|kv t IH]; intros acc Hacc; cbn [fold_left]; [exact Hacc|].
  apply IH.
  destruct (reserved kv) eqn:E; cbn [negb]; [exact Hacc|].
  apply headers_set_Forall; [|exact Hacc].
  unfold reserved in *; cbn [fst]. now rewrite toLowerCase_idem.
Qed.

Lemma copy_headers_clean (h : Headers) :
  Forall (fun kv => reserved kv = false) (copy_headers h).
Proof. apply copy_headers_from. constructor. Qed.

Section Handler.
Variable new_URL : string -> string -> option URL.
Variable verifier : VerifyCall -> FetchOutcome.
Variable backend : BackendCall -> FetchOutcome.

Local Abbreviation handler := (api_handler new_URL verifier backend).

Lemma backend_calls_app (l1 l2 : list Call) :
  backend_calls (l1 ++ l2) = backend_calls l1 ++ backend_calls l2.
Proof. unfold backend_calls. now rewrite flat_map_app. Qed.

(** The verification step never calls the backend. *)
Lemma verify_step_calls env req :
  match verify_step verifier env req with
  | inl (_, calls) => backend_calls calls = []
  | inr calls => backend_calls calls = []
  end.
Proof.
  unfold verify_step.
  destruct (carries_proof req); [|reflexivity].
  destruct (verifier _) as [msg|vr]; [reflexivity|].
  destruct (negb (ok vr)); [reflexivity|].
  destruct (json vr); reflexivity.
Qed.

(** The forwarding step calls the backend at most once, with the call
    built by [backend_call]. *)
Lemma forward_step_calls env req made b :
  backend_calls made = [] ->
  In b (backend_calls (snd (forward_step new_URL backend env req made))) ->
  exists backendUrl target,
    BACKEND_URL env = Some backendUrl /\ new_URL (path req) backendUrl = Some target /\
    b = backend_call target req /\
    fst (forward_step new_URL backend env req made) =
      match backend b with
      | Resolved r =>
          Relayed {| status := status r; statusText := statusText r;
                     resp_headers :=
                       headers_set "Access-Control-Allow-Origin" "*" (resp_headers r);
                     text := text r; json := json r |}
      | Rejected msg => JsonError 502 "Backend unreachable" (Some msg)
      end.
Proof.
  intros Hmade. unfold forward_step.
  destruct (BACKEND_URL env) as [backendUrl|]; simpl; [|rewrite Hmade; intros []].
  destruct (String.eqb backendUrl ""); simpl; [rewrite Hmade; intros []|].
  destruct (new_URL (path req) backendUrl) as [target|] eqn:Htarget; simpl;
    [|rewrite Hmade; intros []].
  destruct (backend (backend_call target req)) as [msg|r] eqn:Hb; simpl;
    rewrite backend_calls_app, Hmade; simpl; intros [<-|[]];
    exists backendUrl, target; rewrite Hb; auto.
Qed.

(** C1. When the request carries a proof or token header: a non-2xx answer
    of the verifier is answered 403 with the verifier's text as detail, an
    unreachable verifier is answered 503, in both cases the verifier call
    is the only call made, and whenever the backend is called the verifier
    had answered 2xx. *)
Theorem unverified_request_is_not_forwarded env req :
  carries_proof req = true ->
  (forall vr, verifier (verify_call env req) = Resolved vr -> ok vr = false ->
     handler env req =
       (JsonError 403 "Invalid ScopeBlind proof" (Some (text vr)),
        [CallVerifier (verify_call env req)]))
  /\ (forall msg, verifier (verify_call env req) = Rejected msg ->
        handler env req =
          (JsonError 503 "Verification service unavailable" None,
           [CallVerifier (verify_call env req)]))
  /\ (forall b, In b (backend_calls (snd (handler env req))) ->
        exists vr, verifier (verify_call env req) = Resolved vr /\ ok vr = true).
Proof.
  intros Hp. unfold api_handler, verify_step. rewrite Hp.
  repeat split.
  - intros vr -> Hok. now rewrite Hok.
  - now intros msg ->.
  - intros b. destruct (verifier _) as [msg|vr]; simpl; [intros []|].
    destruct (ok vr) eqn:Hok; simpl; [|intros []].
    destruct (json vr); simpl; [|intros []].
    intros _. now exists vr.
Qed.

(** C9 (as amended). A 2xx answer of the verifier whose body parses as JSON
    lets the request through whatever the parsed value is: the handler goes
    on to the forwarding step, and with a usable [BACKEND_URL] the backend
    is called.  A 2xx answer whose body does not parse as JSON is answered
    503, and the backend is not called. *)
Theorem verified_2xx_is_forwarded_whatever_the_json env req vr :
  carries_proof req = true ->
  verifier (verify_call env req) = Resolved vr ->
  ok vr = true ->
  (forall j, json vr = Some j ->
     handler env req = forward_step new_URL backend env req [CallVerifier (verify_call env req)]
     /\ forall backendUrl target,
          BACKEND_URL env = Some backendUrl ->
          backendUrl <> "" ->
          new_URL (path req) backendUrl = Some target ->
          backend_calls (snd (handler env req)) = [backend_call target req])
  /\ (json vr = None ->
      handler env req
      = (JsonError 503 "Verification service unavailable" None,
         [CallVerifier (verify_call env req)])
      /\ backend_calls (snd (handler env req)) = []).
Proof.
  intros Hp Hv Hok. split.
  - intros j Hj.
    assert (E : handler env req =
                forward_step new_URL backend env req [CallVerifier (verify_call env req)]).
    { unfold api_handler, verify_step. now rewrite Hp, Hv, Hok, Hj. }
    split; [exact E|]. intros backendUrl target Hb Hne Ht.
    rewrite E. unfold forward_step. rewrite Hb.
    apply String.eqb_neq in Hne. rewrite Hne, Ht.
    destruct (backend _); reflexivity.
  - intros Hj. unfold api_handler, verify_step. rewrite Hp, Hv, Hok, Hj. now split.
Qed.

(** C3 (as amended). Every call the handler makes to the backend goes to
    the URL that the URL parser resolves from the request's path against
    [BACKEND_URL], with the query string of the inbound request; it has the
    method of the inbound request, its body unless the method is GET or
    HEAD (then it has none), and no header whose name starts with
    [x-scopeblind] in any letter case; when that call is rejected the
    handler answers 502. *)
Theorem forwarded_request_is_the_inbound_one env req b :
  In b (backend_calls (snd (handler env req))) ->
  (exists backendUrl target,
     BACKEND_URL env = Some backendUrl
     /\ new_URL (path req) backendUrl = Some target
     /\ bc_url b = set_search (search req) target)
  /\ url_search (bc_url b) = search req
  /\ bc_method b = method req
  /\ (method req <> "GET" -> method req <> "HEAD" -> bc_body b = body req)
  /\ (method req = "GET" \/ method req = "HEAD" -> bc_body b = None)
  /\ Forall (fun kv => reserved kv = false) (bc_headers b)
  /\ (forall msg, backend b = Rejected msg ->
        fst (handler env req) = JsonError 502 "Backend unreachable" (Some msg)).
Proof.
  unfold api_handler. pose proof (verify_step_calls env req) as Hv.
  destruct (verify_step verifier env req) as [[r calls]|made].
  - simpl. rewrite Hv. intros [].
  - intros Hin. apply forward_step_calls in Hin; [|exact Hv].
    destruct Hin as (backendUrl & target & Hb & Ht & -> & Hreply).
    split; [exists backendUrl, target; auto|].
    repeat split; simpl.
    + unfold forwarded_body. intros H1 H2.
      apply String.eqb_neq in H1, H2. now rewrite H1, H2.
    + unfold forwarded_body. intros [->| ->]; reflexivity.
    + apply headers_set_Forall; [reflexivity | apply copy_headers_clean].
    + intros msg Hrej. now rewrite Hreply, Hrej.
Qed.

End Handler.

(** C1 on a request with a proof header and a verifier that answers 401. *)
Lemma unverified_request_witness :
  carries_proof Sample.post_chat = true
  /\ ((forall vr, Sample.verifier_rejects (verify_call Sample.bindings Sample.post_chat) = Resolved vr ->
         ok vr = false ->
         api_handler Sample.new_URL Sample.verifier_rejects Sample.backend_echo
           Sample.bindings Sample.post_chat =
           (JsonError 403 "Invalid ScopeBlind proof" (Some (text vr)),
            [CallVerifier (verify_call Sample.bindings Sample.post_chat)]))
      /\ (forall msg, Sample.verifier_rejects (verify_call Sample.bindings Sample.post_chat) = Rejected msg ->
            api_handler Sample.new_URL Sample.verifier_rejects Sample.backend_echo
              Sample.bindings Sample.post_chat =
              (JsonError 503 "Verification service unavailable" None,
               [CallVerifier (verify_call Sample.bindings Sample.post_chat)]))
      /\ (forall b,
            In b (backend_calls (snd (api_handler Sample.new_URL Sample.verifier_rejects
                                        Sample.backend_echo Sample.bindings Sample.post_chat))) ->
            exists vr, Sample.verifier_rejects (verify_call Sample.bindings Sample.post_chat) = Resolved vr
                       /\ ok vr = true)).
Proof.
  split; [reflexivity|].
  apply (unverified_request_is_not_forwarded Sample.new_URL Sample.verifier_rejects
           Sample.backend_echo Sample.bindings Sample.post_chat).
  reflexivity.
Defined.

(** C9: a 200 answer of the verifier whose body is the text [OK] is not
    forwarded; the gateway answers 503 and the backend is not called. *)
Lemma verified_2xx_with_text_body_is_refused :
  carries_proof Sample.post_chat = true
  /\ Sample.verifier_says_OK (verify_call Sample.bindings Sample.post_chat)
     = Resolved (Sample.plain 200 "OK" None)
  /\ ok (Sample.plain 200 "OK" None) = true
  /\ api_handler Sample.new_URL Sample.verifier_says_OK Sample.backend_echo
       Sample.bindings Sample.post_chat
     = (JsonError 503 "Verification service unavailable" None,
        [CallVerifier (verify_call Sample.bindings Sample.post_chat)])
  /\ backend_calls (snd (api_handler Sample.new_URL Sample.verifier_says_OK Sample.backend_echo
                           Sample.bindings Sample.post_chat)) = [].
Proof. repeat split. Qed.

(** C9 (as amended) on a verifier that answers 200 with [allowed] false. *)
Lemma verified_2xx_witness :
  (carries_proof Sample.post_chat = true
   /\ Sample.verifier_denies_with_200 (verify_call Sample.bindings Sample.post_chat)
      = Resolved (Sample.plain 200 (Sample.allowed_text false)
                    (Some (JObj [("allowed", JBool false)])))
   /\ ok (Sample.plain 200 (Sample.allowed_text false) (Some (JObj [("allowed", JBool false)])))
      = true)
  /\ ((forall j,
         json (Sample.plain 200 (Sample.allowed_text false)
                 (Some (JObj [("allowed", JBool false)]))) = Some j ->
         api_handler Sample.new_URL Sample.verifier_denies_with_200 Sample.backend_echo
           Sample.bindings Sample.post_chat
         = forward_step Sample.new_URL Sample.backend_echo Sample.bindings Sample.post_chat
             [CallVerifier (verify_call Sample.bindings Sample.post_chat)]
         /\ forall backendUrl target,
              BACKEND_URL Sample.bindings = Some backendUrl ->
              backendUrl <> "" ->
              Sample.new_URL (path Sample.post_chat) backendUrl = Some target ->
              backend_calls (snd (api_handler Sample.new_URL Sample.verifier_denies_with_200
                                    Sample.backend_echo Sample.bindings Sample.post_chat))
              = [backend_call target Sample.post_chat])
      /\ (json (Sample.plain 200 (Sample.allowed_text false)
                  (Some (JObj [("allowed", JBool false)]))) = None ->
          api_handler Sample.new_URL Sample.verifier_denies_with_200 Sample.backend_echo
            Sample.bindings Sample.post_chat
          = (JsonError 503 "Verification service unavailable" None,
             [CallVerifier (verify_call Sample.bindings Sample.post_chat)])
          /\ backend_calls (snd (api_handler Sample.new_URL Sample.verifier_denies_with_200
                                   Sample.backend_echo Sample.bindings Sample.post_chat))
             = []))
  /\ backend_calls (snd (api_handler Sample.new_URL Sample.verifier_denies_with_200
                           Sample.backend_echo Sample.bindings Sample.post_chat))
     = [backend_call Sample.chat_target Sample.post_chat].
Proof.
  split; [repeat split|].
  split; [|reflexivity].
  apply (verified_2xx_is_forwarded_whatever_the_json Sample.new_URL
           Sample.verifier_denies_with_200 Sample.backend_echo Sample.bindings Sample.post_chat
           (Sample.plain 200 (Sample.allowed_text false) (Some (JObj [("allowed", JBool false)]))));
    reflexivity.
Defined.

(** C3: a verified GET request that carries content reaches the backend
    without it. *)
Lemma get_content_is_dropped :
  carries_proof Sample.get_with_body = true
  /\ backend_calls (snd (api_handler Sample.new_URL Sample.verifier_allows Sample.backend_echo
                           Sample.bindings Sample.get_with_body))
     = [backend_call Sample.search_target Sample.get_with_body]
  /\ body Sample.get_with_body = Some "q=rocq"
  /\ bc_body (backend_call Sample.search_target Sample.get_with_body)
     = None.
Proof. repeat split. Qed.

(** C3 (as amended) on a verified POST request. *)
Lemma forwarded_request_witness :
  In (backend_call Sample.chat_target Sample.post_chat)
     (backend_calls (snd (api_handler Sample.new_URL Sample.verifier_allows Sample.backend_echo
                            Sample.bindings Sample.post_chat)))
  /\ ((exists backendUrl target,
         BACKEND_URL Sample.bindings = Some backendUrl
         /\ Sample.new_URL (path Sample.post_chat) backendUrl = Some target
         /\ bc_url (backend_call Sample.chat_target Sample.post_chat)
            = set_search (search Sample.post_chat) target)
      /\ url_search (bc_url (backend_call Sample.chat_target Sample.post_chat))
         = search Sample.post_chat
      /\ bc_method (backend_call Sample.chat_target Sample.post_chat) = method Sample.post_chat
      /\ (method Sample.post_chat <> "GET" -> method Sample.post_chat <> "HEAD" ->
          bc_body (backend_call Sample.chat_target Sample.post_chat) = body Sample.post_chat)
      /\ (method Sample.post_chat = "GET" \/ method Sample.post_chat = "HEAD" ->
          bc_body (backend_call Sample.chat_target Sample.post_chat) = None)
      /\ Forall (fun kv => reserved kv = false)
           (bc_headers (backend_call Sample.chat_target Sample.post_chat))
      /\ (forall msg,
            Sample.backend_echo (backend_call Sample.chat_target Sample.post_chat)
            = Rejected msg ->
            fst (api_handler Sample.new_URL Sample.verifier_allows Sample.backend_echo
                   Sample.bindings Sample.post_chat)
            = JsonError 502 "Backend unreachable" (Some msg))).
Proof.
  split; [left; reflexivity|].
  apply (forwarded_request_is_the_inbound_one Sample.new_URL Sample.verifier_allows
           Sample.backend_echo Sample.bindings Sample.post_chat).
  left; reflexivity.
Defined.

End GatewayFacts.

(** * Properties of the widget *)

Module EffectFacts.
Import Effect.

Lemma try_rethrow {S A} (m : M S A) (s : S) : try_catch m (fun e => throw e) s = m s.
Proof. unfold try_catch, throw. destruct (m s) as [[a|e] s']; reflexivity. Qed.

Lemma bind_ok_inv {S A B} (m : M S A) (k : A -> M S B) s b s' :
  bind m k s = (Ok b, s') -> exists a s1, m s = (Ok a, s1) /\ k a s1 = (Ok b, s').
Proof.
  unfold bind. destruct (m s) as [[a|e] s1]; [eauto | discriminate].
Qed.

Lemma bind_ok {S A B} (m : M S A) (k : A -> M S B) s a s1 :
  m s = (Ok a, s1) -> bind m k s = k a s1.
Proof. unfold bind. now intros ->. Qed.

Lemma bind_throw {S A B} (m : M S A) (k : A -> M S B) s e s1 :
  m s = (Throw e, s1) -> bind m k s = (Throw e, s1).
Proof. unfold bind. now intros ->. Qed.

Lemma defined_ok_inv {S A} e (o : option A) (s : S) a s' :
  defined e o s = (Ok a, s') -> o = Some a /\ s' = s.
Proof. destruct o; cbn; [intros [= -> ->]; auto | discriminate]. Qed.

End EffectFacts.

Module VoprfFacts.
Import JS Effect Browser Voprf.

(** [finalize] reads the stored context and leaves it where it is. *)
Lemma finalize_keeps_context env evaluation (c : Client) :
  snd (finalize env evaluation c) = c.
Proof.
  unfold finalize, bind, defined, get, ret, throw.
  destruct c as [fd]. cbn. crunch; reflexivity.
Qed.


(** After a blind step the context is the one the library returned. *)
Lemma generateBlindRequest_ok env n input (c : Client) fd request :
  voprf_blind env n (utf8 input) = Some (fd, request) ->
  generateBlindRequest env n input c = (Ok request, {| finData := Some fd |}).
Proof. unfold generateBlindRequest. now intros ->. Qed.

(** The spend proof is the base64 text of the digest of the token followed
    by the data; computing it changes nothing. *)
Lemma generateSpendProof_with_subtle env s token data (b : State) :
  window_crypto_subtle env = Some s ->
  generateSpendProof env token data b =
    (match digest s (token ++ utf8 data) with
     | Some h => Ok (btoa env h)
     | None => Throw (Error "digest failed")
     end, b).
Proof.
  unfold window_crypto_subtle, generateSpendProof, crypto_subtle, bind, defined, ret, throw.
  destruct (crypto env) as [c|]; [|discriminate].
  intros ->. cbn. destruct (digest s _); reflexivity.
Qed.

(** Without [crypto.subtle] there is no spend proof. *)
Lemma generateSpendProof_without_subtle env token data (b : State) :
  window_crypto_subtle env = None ->
  is_ok (fst (generateSpendProof env token data b)) = false.
Proof.
  unfold window_crypto_subtle, generateSpendProof, crypto_subtle, bind, defined, ret, throw.
  destruct (crypto env) as [c|]; [|reflexivity].
  now intros ->.
Qed.

End VoprfFacts.

Module HolderBindingFacts.
Import JS Effect Browser HolderBinding EffectFacts.

(** [signRequest] never throws. *)
Lemma signRequest_returns env method path body b :
  is_ok (fst (signRequest env method path body b)) = true.
Proof.
  unfold signRequest, try_catch, ret.
  destruct (signRequest_try env method path body b) as [[r|e] b']; reflexivity.
Qed.

(** Without [crypto.subtle] every signature is [null]. *)
Lemma signRequest_null_without_subtle env method path body b :
  window_crypto_subtle env = None ->
  fst (signRequest env method path body b) = Ok None.
Proof.
  unfold window_crypto_subtle, signRequest, try_catch, signRequest_try, openDB, with_store,
    db_get_privateKey, crypto_subtle, bind, get, modify, defined, ret, throw.
  intros H. destruct b as [ls db dr cs ck]. cbn.
  crunch; try reflexivity; congruence.
Qed.

Lemma fallback_without_subtle env :
  window_crypto_subtle env = None ->
  getOrCreateDeviceIdentity env = getFallbackIdentity env.
Proof. unfold getOrCreateDeviceIdentity. now intros ->. Qed.

Lemma getFallbackIdentity_cases env b :
  getFallbackIdentity env b =
    match localStorage b !! STORAGE_KEY with
    | Some id =>
        if String.eqb id "" then
          match crypto_randomUUID env b with
          | (Ok fresh, b') =>
              if storage_accepts env (localStorage b') STORAGE_KEY fresh then
                (Ok {| type := fallback; di_publicKey := None; deviceId := Some fresh |},
                 set_localStorage (fun m => <[STORAGE_KEY := fresh]> m) b')
              else (Throw (DOMException "QuotaExceededError"), b')
          | (Throw e, b') => (Throw e, b')
          end
        else (Ok {| type := fallback; di_publicKey := None; deviceId := Some id |}, b)
    | None =>
        match crypto_randomUUID env b with
        | (Ok fresh, b') =>
            if storage_accepts env (localStorage b') STORAGE_KEY fresh then
              (Ok {| type := fallback; di_publicKey := None; deviceId := Some fresh |},
               set_localStorage (fun m => <[STORAGE_KEY := fresh]> m) b')
            else (Throw (DOMException "QuotaExceededError"), b')
        | (Throw e, b') => (Throw e, b')
        end
    end.
Proof.
  unfold getFallbackIdentity, getItem, setItem, bind, modify, ret, truthy, or_else.
  destruct (localStorage b !! STORAGE_KEY) as [id|]; cbn.
  - destruct (String.eqb id ""); cbn; [|reflexivity].
    destruct (crypto_randomUUID env b) as [[fresh|e] b']; [|reflexivity].
    destruct (storage_accepts env _ _ _); reflexivity.
  - destruct (crypto_randomUUID env b) as [[fresh|e] b']; [|reflexivity].
    destruct (storage_accepts env _ _ _); reflexivity.
Qed.

(** X14. The fallback identity, once created, is the one every later call returns. *)
Lemma fallback_identity_is_stable env b di b' :
  getFallbackIdentity env b = (Ok di, b') ->
  (forall c gen n, crypto env = Some c -> randomUUID c = Some gen -> gen n <> "") ->
  type di = fallback
  /\ (exists id, deviceId di = Some id /\ id <> "" /\ localStorage b' !! STORAGE_KEY = Some id)
  /\ getFallbackIdentity env b' = (Ok di, b').
Proof.
  intros H Hgen.
  assert (Hshape : type di = fallback /\
            exists id, deviceId di = Some id /\ id <> "" /\ localStorage b' !! STORAGE_KEY = Some id).
  { rewrite getFallbackIdentity_cases in H.
    assert (Hfresh : forall fresh b1, crypto_randomUUID env b = (Ok fresh, b1) -> fresh <> "").
    { unfold crypto_randomUUID, draw, bind, ret, throw.
      intros fresh b1. destruct (crypto env) as [c|] eqn:Hc; [|discriminate].
      destruct (randomUUID c) as [gen|] eqn:Hg; [|discriminate].
      intros [= <- _]. eapply Hgen; eauto. }
    destruct (localStorage b !! STORAGE_KEY) as [id|] eqn:Hid.
    - destruct (String.eqb id "") eqn:He.
      + destruct (crypto_randomUUID env b) as [[fresh|e] b1] eqn:Hr; [|discriminate].
        destruct (storage_accepts env _ _ _); [|discriminate].
        injection H as <- <-. split; [reflexivity|]. exists fresh.
        repeat split; [eapply Hfresh; eauto|]. cbn. apply lookup_insert_eq.
      + injection H as <- <-. split; [reflexivity|]. exists id.
        repeat split; [now apply String.eqb_neq | exact Hid].
    - destruct (crypto_randomUUID env b) as [[fresh|e] b1] eqn:Hr; [|discriminate].
      destruct (storage_accepts env _ _ _); [|discriminate].
      injection H as <- <-. split; [reflexivity|]. exists fresh.
      repeat split; [eapply Hfresh; eauto|]. cbn. apply lookup_insert_eq. }
  destruct Hshape as (Hty & id & Hid & Hne & Hls).
  repeat split; [exact Hty | eauto |].
  rewrite getFallbackIdentity_cases, Hls.
  apply String.eqb_neq in Hne. rewrite Hne.
  rewrite getFallbackIdentity_cases in H.
  destruct di as [ty pk did]. cbn in *. subst.
  destruct (localStorage b !! STORAGE_KEY) as [id0|].
  - destruct (String.eqb id0 "").
    + destruct (crypto_randomUUID env b) as [[fresh|e] b1]; [|discriminate].
      destruct (storage_accepts env _ _ _); [|discriminate].
      now injection H as <- <-.
    + now injection H as <- <-.
  - destruct (crypto_randomUUID env b) as [[fresh|e] b1]; [|discriminate].
    destruct (storage_accepts env _ _ _); [|discriminate].
    now injection H as <- <-.
Qed.

(** Without [randomUUID] the fallback cannot be created. *)
Lemma fallback_needs_randomUUID env b :
  window_crypto_subtle env = None ->
  (crypto env = None \/ exists c, crypto env = Some c /\ randomUUID c = None) ->
  truthy (localStorage b !! STORAGE_KEY) = false ->
  exists e, getOrCreateDeviceIdentity env b = (Throw e, b).
Proof.
  intros Hs Hc Ht. rewrite (fallback_without_subtle env Hs).
  unfold getFallbackIdentity, getItem, bind. cbn. rewrite Ht.
  unfold crypto_randomUUID, bind, throw.
  destruct Hc as [->|(c & -> & ->)]; eauto.
Qed.


Lemma getFallbackIdentity_database env b r b' :
  getFallbackIdentity env b = (r, b') -> database b' = database b.
Proof.
  rewrite getFallbackIdentity_cases.
  unfold crypto_randomUUID, draw, bind, ret, throw.
  crunch; intros [= <- <-]; reflexivity.
Qed.

Lemma signRequest_database_only env method path body b1 b2 :
  database b1 = database b2 ->
  fst (signRequest env method path body b1) = fst (signRequest env method path body b2).
Proof.
  unfold signRequest, try_catch, signRequest_try, openDB, with_store,
    db_get_privateKey, crypto_subtle, bind, get, modify, defined, ret, throw.
  destruct b1 as [ls1 db1 dr1 cs1 ck1], b2 as [ls2 db2 dr2 cs2 ck2]. cbn.
  intros ->. crunch; try reflexivity; congruence.
Qed.

Lemma webcrypto_failure_leaves_no_key env b e b1 :
  keys_paired b ->
  getWebCryptoIdentity env b = (Throw e, b1) ->
  forall method path body, fst (signRequest env method path body b1) = Ok None.
Proof.
  unfold keys_paired, getWebCryptoIdentity, signRequest, try_catch, signRequest_try, openDB,
    with_store, db_get_publicKey, db_get_privateKey, db_put_publicKey, db_put_privateKey,
    crypto_subtle, draw, bind, get, modify, defined, ret, throw.
  destruct b as [ls db dr cs ck]. cbn.
  intros Hinv H method path body. revert H.
  destruct (indexedDB_opens env) eqn:Hopen; cbn.
  - destruct db as [| |[pk sk]]; cbn.
    + crunch; intros [= <- <-]; cbn in *; rewrite ?Hopen; cbn;
        first [reflexivity | by simplify_eq/=].
    + intros [= <- <-]; cbn; rewrite ?Hopen; reflexivity.
    + destruct pk as [pk|]; cbn; [discriminate|].
      cbn in Hinv. rewrite (Hinv eq_refl).
      crunch; intros [= <- <-]; cbn in *; rewrite ?Hopen; cbn;
        first [reflexivity | by simplify_eq/=].
  - intros [= <- <-]; cbn; rewrite ?Hopen; reflexivity.
Qed.

(** X15. With the fallback identity nothing is signed: [signRequest] returns
    null for every request. *)
Lemma sign_is_null_in_fallback env b di b' :
  keys_paired b ->
  getOrCreateDeviceIdentity env b = (Ok di, b') ->
  type di = fallback ->
  forall method path body, fst (signRequest env method path body b') = Ok None.
Proof.
  intros Hinv H Hty method path body.
  unfold getOrCreateDeviceIdentity in H.
  destruct (window_crypto_subtle env) as [s|] eqn:Hs.
  - unfold try_catch in H.
    destruct (getWebCryptoIdentity env b) as [[di0|e] b1] eqn:Hw.
    + injection H as <- <-. exfalso.
      unfold getWebCryptoIdentity, bind, ret in Hw.
      revert Hw. crunch; intros [= <- _]; try discriminate.
    + rewrite (signRequest_database_only env method path body b' b1).
      * eapply webcrypto_failure_leaves_no_key; eauto.
      * eapply getFallbackIdentity_database; eauto.
  - now apply signRequest_null_without_subtle.
Qed.

(** C7. On a platform without the global [crypto], and on a page served
    over plain HTTP (where [crypto] has neither [subtle] nor [randomUUID]),
    the first call of [getOrCreateDeviceIdentity] throws instead of
    returning a fallback identity. *)
Theorem fallback_identity_throws_without_randomUUID :
  getOrCreateDeviceIdentity Sample.env_without_crypto Sample.fresh_browser
  = (Throw (ReferenceError "crypto is not defined"), Sample.fresh_browser)
  /\ getOrCreateDeviceIdentity Sample.env_insecure Sample.fresh_browser
     = (Throw (TypeError "crypto.randomUUID is not a function"), Sample.fresh_browser).
Proof. split; reflexivity. Qed.

End HolderBindingFacts.

Module UIFacts.
Import UI.

Lemma classList_add_has c e : existsb (String.eqb c) (classList (classList_add c e)) = true.
Proof.
  unfold classList_add.
  destruct (existsb (String.eqb c) (classList e)) eqn:E; [exact E|].
  cbn. rewrite existsb_app. cbn. rewrite String.eqb_refl. now rewrite orb_true_r.
Qed.

(** After [showQuotaExceeded] the modal is showing. *)
Lemma showQuotaExceeded_visible ui : quota_modal_visible (showQuotaExceeded ui) = true.
Proof.
  unfold quota_modal_visible, showQuotaExceeded, createModal.
  destruct ui as [b [m|]]; cbn [modal badge option_map]; apply classList_add_has.
Qed.

End UIFacts.

Module WidgetFacts.
Import JS Effect Browser HolderBinding Widget EffectFacts.

(** What one mint does: it leaves the configuration, the interface, the
    device identity, the database and the clock alone; on success the token
    is set and stored under the site's key; on failure the storage is
    unchanged and the in-memory token is unchanged or unset, unless the
    failure is the storage refusing the write, which comes after the token
    was set; the issuer is called at most once, and the outcome is
    explained by its answer. *)
Lemma mint_spec env p :
  let r := fst (mint env p) in
  let p' := snd (mint env p) in
  (config (widget p') = config (widget p)
   /\ ui (widget p') = ui (widget p)
   /\ deviceIdentity (widget p') = deviceIdentity (widget p)
   /\ database (browser p') = database (browser p)
   /\ clock (browser p') = clock (browser p))
  /\ (match r with
      | Ok t =>
          token (widget p') = Some t
          /\ localStorage (browser p') =
               <[token_key (siteId (config (widget p))) := stringify_bytes env t]>
                 (localStorage (browser p))
      | Throw e =>
          localStorage (browser p') = localStorage (browser p)
          /\ (token (widget p') = token (widget p)
              \/ token (widget p') = None
              \/ exists t,
                   token (widget p') = Some t
                   /\ storage_accepts env (localStorage (browser p))
                        (token_key (siteId (config (widget p)))) (stringify_bytes env t) = false
                   /\ e = DOMException "QuotaExceededError")
      end)
  /\ (calls (browser p') = calls (browser p) /\ is_ok r = false
      /\ token (widget p') = token (widget p)
      \/ exists c,
           calls (browser p') = calls (browser p) ++ [CallIssuer c]
           /\ match issuer env (length (calls (browser p))) c with
              | Rejected msg => r = Throw (TypeError msg) /\ token (widget p') = token (widget p)
              | Resolved resp =>
                  if ok resp then
                    forall t,
                      r = Ok t
                      \/ token (widget p) = None /\ token (widget p') = Some t ->
                      exists n input request evalB64 bytes fd,
                        voprf_blind env n input = Some (fd, request)
                        /\ ic_evalReqB64 c = base64url_encode env request
                        /\ evalB64_of resp = Ok evalB64
                        /\ base64url_decode env evalB64 = Some bytes
                        /\ Voprf.finData (voprfClient (widget p')) = Some fd
                        /\ fst (Voprf.finalize env bytes (voprfClient (widget p')))
                           = Ok (Some t)
                  else
                    r = Throw (Error ("Failed to issue token: "
                                      +:+ string_of_status (status resp)
                                      +:+ " - " +:+ text resp))
                    /\ token (widget p') = token (widget p)
              end).
Proof.
  destruct p as [w b].
  unfold mint, in_browser, in_client, update, zoom, bind, ret, throw, get, modify, defined,
    crypto_randomUUID, draw, Voprf.generateBlindRequest, fetch_issuer, read_evalB64, setItem.
  cbn.
  crunch.
  all: try match goal with
         | H : Voprf.finalize ?e ?ev ?c = (_, ?c') |- _ =>
             pose proof (VoprfFacts.finalize_keeps_context e ev c) as Hkeep;
             rewrite H in Hkeep; cbn in Hkeep; subst c'
         end.
  all: subst.
  all: (split; [repeat split|]).
  all: (split;
        [first [split; reflexivity
               | split; [reflexivity|];
                 first [left; reflexivity
                       | right; left; reflexivity
                       | right; right; eexists; repeat split; eassumption]]
        |]).
  all: try (left; repeat split; reflexivity).
  all: right; eexists; (split; [reflexivity|]);
    match goal with H : issuer _ _ _ = _ |- _ => rewrite H end;
    try match goal with H : ok _ = _ |- _ => rewrite H end;
    try (split; reflexivity).
  all: intros t' [Ht'|[Hnone Htok]]; try discriminate Ht'; try congruence.
  all: try (injection Ht' as <-); try (injection Htok as <-).
  all: do 6 eexists;
    (split; [eassumption|]); (split; [reflexivity|]); (split; [eassumption|]);
    (split; [eassumption|]); (split; [reflexivity|]);
    cbn; match goal with H : Voprf.finalize _ _ _ = _ |- _ => now rewrite H end.
Qed.

Lemma ensureToken_cases env p :
  ensureToken env p =
    match token (widget p) with
    | Some t => (Ok t, p)
    | None =>
        let stored := localStorage (browser p) !! token_key (siteId (config (widget p))) in
        if truthy stored then
          match parse_bytes env (or_else stored "") with
          | Some t => (Ok t, set_widget (set_token (Some t) (widget p)) p)
          | None => (Throw (SyntaxError "JSON.parse"), p)
          end
        else mint env p
    end.
Proof.
  destruct p as [w b].
  unfold ensureToken, bind, get, in_browser, zoom, getItem, update, modify, defined, ret, throw.
  cbn [widget browser fst snd].
  destruct (token w); [reflexivity|].
  cbn [set_browser widget browser].
  destruct (truthy _); [|apply try_rethrow].
  destruct (parse_bytes env _); reflexivity.
Qed.

(** A successful [ensureToken] leaves its result in the widget. *)
Lemma ensureToken_ok_token env p t p' :
  ensureToken env p = (Ok t, p') -> token (widget p') = Some t.
Proof.
  rewrite ensureToken_cases.
  destruct (token (widget p)) as [t0|] eqn:Ht; [now intros [= <- <-]|].
  cbn zeta. destruct (truthy _).
  - destruct (parse_bytes env _); [now intros [= <- <-] | discriminate].
  - intros H. pose proof (mint_spec env p) as (_ & Hr & _).
    rewrite H in Hr. apply Hr.
Qed.

(** [ensureToken] keeps the configuration, the interface, the device
    identity, the database and the clock. *)
Lemma ensureToken_frame env p :
  let p' := snd (ensureToken env p) in
  config (widget p') = config (widget p)
  /\ ui (widget p') = ui (widget p)
  /\ deviceIdentity (widget p') = deviceIdentity (widget p)
  /\ database (browser p') = database (browser p)
  /\ clock (browser p') = clock (browser p).
Proof.
  rewrite ensureToken_cases.
  destruct (token (widget p)) as [t0|] eqn:Ht; [now repeat split|].
  cbn zeta. destruct (truthy _).
  - destruct (parse_bytes env _); now repeat split.
  - apply (mint_spec env p).
Qed.

(** A token found in the storage is read back, provided the array of bytes
    survives [JSON.stringify] and [JSON.parse]. *)
Lemma stored_token_is_read_back env p t :
  token (widget p) = None ->
  localStorage (browser p) !! token_key (siteId (config (widget p)))
  = Some (stringify_bytes env t) ->
  stringify_bytes env t <> "" ->
  parse_bytes env (stringify_bytes env t) = Some t ->
  ensureToken env p = (Ok t, set_widget (set_token (Some t) (widget p)) p).
Proof.
  intros Ht Hs Hne Hrt. rewrite ensureToken_cases, Ht. cbn zeta. rewrite Hs.
  apply String.eqb_neq in Hne. cbn. now rewrite Hne, Hrt.
Qed.

(** C2 (as amended). Once [ensureToken] has returned a token, the next call
    returns the same bytes and changes nothing, and so does a call at any
    later time: the cached token is never minted again. *)
Theorem cached_token_is_returned_at_any_time env p t p' :
  ensureToken env p = (Ok t, p') ->
  ensureToken env p' = (Ok t, p')
  /\ forall time,
       ensureToken env (set_browser (set_clock time (browser p')) p')
       = (Ok t, set_browser (set_clock time (browser p')) p').
Proof.
  intros H. apply ensureToken_ok_token in H.
  split; [|intros time]; rewrite ensureToken_cases; cbn; now rewrite H.
Qed.



(** C2: a token minted before the clock moved on by a year is returned
    again afterwards, and no call goes to the issuer, although the issuer
    would have answered with another evaluation. *)
Lemma token_outlives_the_epoch :
  fst (ensureToken Sample.env Sample.configured_page) = Ok (utf8 "a-uuidA+eval")
  /\ fst (ensureToken Sample.env
            (Sample.later 31536000000 (snd (ensureToken Sample.env Sample.configured_page))))
     = Ok (utf8 "a-uuidA+eval")
  /\ calls (browser (snd (ensureToken Sample.env
                            (Sample.later 31536000000
                               (snd (ensureToken Sample.env Sample.configured_page))))))
     = calls (browser (snd (ensureToken Sample.env Sample.configured_page)))
  /\ Sample.issuer_up 0 {| ic_url := ""; ic_evalReqB64 := "" |}
     <> Sample.issuer_up 1 {| ic_url := ""; ic_evalReqB64 := "" |}.
Proof. repeat split; try (vm_compute; reflexivity). discriminate. Qed.

(** C2 (as amended) on the first mint of the sample page. *)
Lemma cached_token_witness :
  ensureToken Sample.env Sample.configured_page
  = (Ok (utf8 "a-uuidA+eval"), snd (ensureToken Sample.env Sample.configured_page))
  /\ (ensureToken Sample.env (snd (ensureToken Sample.env Sample.configured_page))
      = (Ok (utf8 "a-uuidA+eval"), snd (ensureToken Sample.env Sample.configured_page))
      /\ forall time,
           ensureToken Sample.env
             (set_browser
                (set_clock time (browser (snd (ensureToken Sample.env Sample.configured_page))))
                (snd (ensureToken Sample.env Sample.configured_page)))
           = (Ok (utf8 "a-uuidA+eval"),
              set_browser
                (set_clock time (browser (snd (ensureToken Sample.env Sample.configured_page))))
                (snd (ensureToken Sample.env Sample.configured_page)))).
Proof.
  assert (H : ensureToken Sample.env Sample.configured_page
              = (Ok (utf8 "a-uuidA+eval"), snd (ensureToken Sample.env Sample.configured_page)))
    by (vm_compute; reflexivity).
  split; [exact H|].
  exact (cached_token_is_returned_at_any_time Sample.env Sample.configured_page _ _ H).
Defined.





Lemma set_header_ok_inv name value h h' :
  set_header name value h = Ok h' ->
  header_name name = true /\ header_value (normalize_value value) = true
  /\ h' = headers_set name (normalize_value value) h.
Proof.
  unfold set_header. destruct (header_name name); cbn; [|discriminate].
  destruct (header_value _); cbn; [|discriminate]. now intros [= <-].
Qed.

Lemma request_for_ok_inv env options path p0 call p1 :
  request_for env options path p0 = (Ok call, p1) ->
  exists tok proof b1 h0 h1 h2 signature b2 headers,
    token (widget p0) = Some tok
    /\ Voprf.generateSpendProof env tok
         (or_else (ri_method options) "GET" +:+ ":" +:+ path) (browser p0) = (Ok proof, b1)
    /\ headers_new (ri_headers options) = Ok h0
    /\ set_header "X-ScopeBlind-Proof" proof h0 = Ok h1
    /\ set_header "X-ScopeBlind-Site" (siteId (config (widget p0))) h1 = Ok h2
    /\ signRequest env (or_else (ri_method options) "GET") path
         (if truthy (ri_body options) then ri_body options else None) b1 = (Ok signature, b2)
    /\ bind_holder signature (deviceIdentity (widget p0)) h2 = Ok headers
    /\ p1 = set_browser b2 p0
    /\ call =
         {| pc_url := interpolate (proxyUrl (config (widget p0))) +:+ "/"
                      +:+ siteId (config (widget p0)) +:+ path;
            pc_init :=
              {| ri_method := ri_method options;
                 ri_headers := headers;
                 ri_body := ri_body options |} |}.
Proof.
  destruct p0 as [w b].
  unfold request_for, bind, get, defined, in_browser, zoom, lift, ret, throw.
  cbn [widget browser set_browser].
  destruct (token w) as [tok|]; [|discriminate].
  match goal with
  | |- context [Voprf.generateSpendProof ?e ?t ?d ?s] =>
      destruct (Voprf.generateSpendProof e t d s) as [[proof|e'] b1] eqn:Hp; [|discriminate]
  end.
  cbn [widget browser set_browser].
  destruct (headers_new (ri_headers options)) as [h0|e0] eqn:H0; [|discriminate].
  destruct (set_header "X-ScopeBlind-Proof" proof h0) as [h1|e1] eqn:H1; [|discriminate].
  destruct (set_header "X-ScopeBlind-Site" (siteId (config w)) h1) as [h2|e2] eqn:H2;
    [|discriminate].
  match goal with
  | |- context [signRequest ?e ?m ?pa ?bo ?s] =>
      destruct (signRequest e m pa bo s) as [[signature|e'] b2] eqn:Hs; [|discriminate]
  end.
  cbn [widget browser set_browser].
  destruct (bind_holder signature (deviceIdentity w) h2) as [headers|e3] eqn:H3; [|discriminate].
  intros [= <- <-].
  exists tok, proof, b1, h0, h1, h2, signature, b2, headers. repeat split; auto.
Qed.

Lemma prepare_ok_inv env url options p call p1 :
  prepare env url options p = (Ok call, p1) ->
  exists t p0 u,
    ensureToken env p = (Ok t, p0)
    /\ parseURL env url (origin env) = Some u
    /\ request_for env options (pathname u) p0 = (Ok call, p1).
Proof.
  unfold prepare. intros H.
  apply bind_ok_inv in H as (t & p0 & He & H).
  apply bind_ok_inv in H as (u & p0' & Hu & H).
  apply defined_ok_inv in Hu as [Hu ->].
  eauto 10.
Qed.

(** What [fetch] does once the request is prepared: one call to the proxy,
    whose response is returned as it is, with the quota modal shown for
    429 and 402; a rejected call throws. *)
Lemma fetch_after_prepare env url options p call p1 :
  prepare env url options p = (Ok call, p1) ->
  fst (fetch env url options p) =
    match proxy env (length (calls (browser p1))) call with
    | Resolved r => Ok r
    | Rejected msg => Throw (TypeError msg)
    end
  /\ calls (browser (snd (fetch env url options p))) = calls (browser p1) ++ [CallProxy call]
  /\ ui (widget (snd (fetch env url options p))) =
       match proxy env (length (calls (browser p1))) call with
       | Resolved r =>
           if quota_status (status r) then UI.showQuotaExceeded (ui (widget p1))
           else ui (widget p1)
       | Rejected _ => ui (widget p1)
       end.
Proof.
  intros H. unfold fetch. rewrite try_rethrow.
  rewrite (bind_ok _ _ _ _ _ H).
  destruct p1 as [w b].
  unfold fetch_proxy, bind, get, in_browser, zoom, modify, update, ret, throw.
  cbn [widget browser set_browser].
  destruct (proxy env _ call) as [msg|r]; [now repeat split|].
  cbn [widget browser set_browser].
  destruct (quota_status (status r)); now repeat split.
Qed.

(** [fetch] throws what the preparation throws. *)
Lemma fetch_prepare_throws env url options p e p1 :
  prepare env url options p = (Throw e, p1) ->
  fetch env url options p = (Throw e, p1).
Proof.
  intros H. unfold fetch. rewrite try_rethrow. now rewrite (bind_throw _ _ _ _ _ H).
Qed.

(** [fetch] throws only when no response was received: the preparation
    threw, or the call to the proxy was rejected. *)
Lemma fetch_throws_only_without_response env url options p e :
  fst (fetch env url options p) = Throw e ->
  fst (prepare env url options p) = Throw e
  \/ exists call p1 msg,
       prepare env url options p = (Ok call, p1)
       /\ proxy env (length (calls (browser p1))) call = Rejected msg
       /\ e = TypeError msg.
Proof.
  destruct (prepare env url options p) as [[call|e'] p1] eqn:Hp.
  - destruct (fetch_after_prepare env url options p call p1 Hp) as (Hr & _).
    rewrite Hr. destruct (proxy env _ call) as [msg|r] eqn:Hx; [|discriminate].
    intros [= <-]. right. exists call, p1, msg. auto.
  - rewrite (fetch_prepare_throws env url options p e' p1 Hp). cbn [fst].
    intros [= ->]. now left.
Qed.

(** C5 (as amended). What [fetch] returns, case by case.  When the request
    was prepared and the proxy answered, [fetch] returns that very response
    and does not throw, whatever the status; for 429 and 402 the quota
    modal is showing afterwards.  [fetch] throws in two cases only: the
    preparation of the request threw (then it throws the same exception and
    the proxy is not called), or the call to the proxy was rejected. *)
Theorem rate_limited_response_is_returned env url options p :
  match prepare env url options p with
  | (Ok call, p1) =>
      calls (browser (snd (fetch env url options p))) = calls (browser p1) ++ [CallProxy call]
      /\ match proxy env (length (calls (browser p1))) call with
         | Resolved r =>
             fst (fetch env url options p) = Ok r
             /\ (status r = 429 \/ status r = 402 ->
                 ui (widget (snd (fetch env url options p)))
                 = UI.showQuotaExceeded (ui (widget p1))
                 /\ UI.quota_modal_visible (ui (widget (snd (fetch env url options p)))) = true)
         | Rejected msg => fst (fetch env url options p) = Throw (TypeError msg)
         end
  | (Throw e, p1) => fetch env url options p = (Throw e, p1)
  end.
Proof.
  destruct (prepare env url options p) as [[call|e] p1] eqn:Hp.
  - destruct (fetch_after_prepare env url options p call p1 Hp) as (Hr & Hcalls & Hui).
    split; [exact Hcalls|].
    destruct (proxy env _ call) as [msg|r]; [exact Hr|].
    split; [exact Hr|]. intros Hs.
    assert (Hq : quota_status (status r) = true)
      by (unfold quota_status; destruct Hs as [-> | ->]; reflexivity).
    rewrite Hq in Hui. rewrite Hui. split; [reflexivity|].
    apply UIFacts.showQuotaExceeded_visible.
  - now apply fetch_prepare_throws.
Qed.

(** C10. Of the url given to [fetch] only the pathname is used: the request
    goes to proxyUrl/siteId followed by the pathname, the spend proof is
    made for method:pathname, the signature for method, pathname and body,
    any other url with the same pathname prepares the same request and
    leaves the same state, and the prepared request is the one call that
    [fetch] makes to the proxy. *)
Theorem fetch_uses_only_the_pathname env url options p call p1 :
  prepare env url options p = (Ok call, p1) ->
  exists u,
    parseURL env url (origin env) = Some u
    /\ pc_url call = interpolate (proxyUrl (config (widget p))) +:+ "/"
                     +:+ siteId (config (widget p)) +:+ pathname u
    /\ (exists tok b0 proof b1 signature b2 h0 h1 h2,
          Voprf.generateSpendProof env tok
            (or_else (ri_method options) "GET" +:+ ":" +:+ pathname u) b0 = (Ok proof, b1)
          /\ signRequest env (or_else (ri_method options) "GET") (pathname u)
               (if truthy (ri_body options) then ri_body options else None) b1
             = (Ok signature, b2)
          /\ headers_new (ri_headers options) = Ok h0
          /\ set_header "X-ScopeBlind-Proof" proof h0 = Ok h1
          /\ set_header "X-ScopeBlind-Site" (siteId (config (widget p))) h1 = Ok h2
          /\ bind_holder signature (deviceIdentity (widget p)) h2
             = Ok (ri_headers (pc_init call)))
    /\ (forall url' u',
          parseURL env url' (origin env) = Some u' ->
          pathname u' = pathname u ->
          prepare env url' options p = (Ok call, p1))
    /\ calls (browser (snd (fetch env url options p))) = calls (browser p1) ++ [CallProxy call].
Proof.
  intros H.
  destruct (fetch_after_prepare env url options p call p1 H) as (_ & Hcalls & _).
  apply prepare_ok_inv in H as (t & p0 & u & He & Hu & Hr).
  pose proof (ensureToken_frame env p) as (Hcfg & _ & Hdi & _). rewrite He in Hcfg, Hdi.
  cbn [snd] in Hcfg, Hdi.
  exists u. split; [exact Hu|].
  pose proof Hr as Hr'.
  apply request_for_ok_inv in Hr'
    as (tok & proof & b1 & h0 & h1 & h2 & signature & b2 & headers
        & _ & Hp & H0 & H1 & H2 & Hs & H3 & _ & Hc).
  rewrite Hcfg in Hc, H2. rewrite Hdi in H3.
  repeat split.
  - now rewrite Hc.
  - exists tok, (browser p0), proof, b1, signature, b2, h0, h1, h2. rewrite Hc. auto 10.
  - intros url' u' Hu' Hpath. unfold prepare.
    rewrite (bind_ok _ _ _ _ _ He). unfold bind at 1, defined. rewrite Hu'. cbn.
    now rewrite Hpath.
  - exact Hcalls.
Qed.

(** C5: with a stored token that does not parse, [fetch] throws a
    [SyntaxError] although nothing went wrong on the network: no call was
    made at all. *)
Lemma fetch_throws_without_a_network_call :
  fetch Sample.env_strict_json "/chat" Sample.post_options Sample.corrupt_page
  = (Throw (SyntaxError "JSON.parse"), Sample.corrupt_page)
  /\ calls (browser Sample.corrupt_page) = [].
Proof. split; vm_compute; reflexivity. Qed.

(** C5 (as amended) on a proxy that answers 429. *)
Lemma rate_limited_response_witness :
  prepare Sample.env "/chat?lang=en" Sample.post_options Sample.ready_page
  = (Ok Sample.chat_call, Sample.chat_page)
  /\ proxy Sample.env (length (calls (browser Sample.chat_page))) Sample.chat_call
     = Resolved (Sample.plain 429 "quota exceeded" None)
  /\ fst (fetch Sample.env "/chat?lang=en" Sample.post_options Sample.ready_page)
     = Ok (Sample.plain 429 "quota exceeded" None)
  /\ UI.quota_modal_visible
       (ui (widget (snd (fetch Sample.env "/chat?lang=en" Sample.post_options
                           Sample.ready_page)))) = true.
Proof.
  assert (Hp : prepare Sample.env "/chat?lang=en" Sample.post_options Sample.ready_page
               = (Ok Sample.chat_call, Sample.chat_page)) by (vm_compute; reflexivity).
  assert (Hx : proxy Sample.env (length (calls (browser Sample.chat_page))) Sample.chat_call
               = Resolved (Sample.plain 429 "quota exceeded" None)) by reflexivity.
  pose proof (rate_limited_response_is_returned Sample.env "/chat?lang=en" Sample.post_options
                Sample.ready_page) as H.
  rewrite Hp, Hx in H. destruct H as (_ & Hr & Hq).
  split; [exact Hp|]. split; [exact Hx|]. split; [exact Hr|].
  exact (proj2 (Hq (or_introl eq_refl))).
Defined.

(** C10 on a url with a query string. *)
Lemma fetch_uses_only_the_pathname_witness :
  prepare Sample.env "/chat?lang=en" Sample.post_options Sample.ready_page
  = (Ok Sample.chat_call, Sample.chat_page)
  /\ exists u,
       parseURL Sample.env "/chat?lang=en" (origin Sample.env) = Some u
       /\ pc_url Sample.chat_call
          = interpolate (proxyUrl (config (widget Sample.ready_page))) +:+ "/"
            +:+ siteId (config (widget Sample.ready_page)) +:+ pathname u
       /\ (exists tok b0 proof b1 signature b2 h0 h1 h2,
             Voprf.generateSpendProof Sample.env tok
               (or_else (ri_method Sample.post_options) "GET" +:+ ":" +:+ pathname u) b0
             = (Ok proof, b1)
             /\ signRequest Sample.env (or_else (ri_method Sample.post_options) "GET")
                  (pathname u)
                  (if truthy (ri_body Sample.post_options)
                   then ri_body Sample.post_options else None) b1
                = (Ok signature, b2)
             /\ headers_new (ri_headers Sample.post_options) = Ok h0
             /\ set_header "X-ScopeBlind-Proof" proof h0 = Ok h1
             /\ set_header "X-ScopeBlind-Site" (siteId (config (widget Sample.ready_page))) h1
                = Ok h2
             /\ bind_holder signature (deviceIdentity (widget Sample.ready_page)) h2
                = Ok (ri_headers (pc_init Sample.chat_call)))
       /\ (forall url' u',
             parseURL Sample.env url' (origin Sample.env) = Some u' ->
             pathname u' = pathname u ->
             prepare Sample.env url' Sample.post_options Sample.ready_page
             = (Ok Sample.chat_call, Sample.chat_page))
       /\ calls (browser (snd (fetch Sample.env "/chat?lang=en" Sample.post_options
                                 Sample.ready_page)))
          = calls (browser Sample.chat_page) ++ [CallProxy Sample.chat_call].
Proof.
  assert (Hp : prepare Sample.env "/chat?lang=en" Sample.post_options Sample.ready_page
               = (Ok Sample.chat_call, Sample.chat_page)) by (vm_compute; reflexivity).
  split; [exact Hp|].
  exact (fetch_uses_only_the_pathname Sample.env "/chat?lang=en" Sample.post_options
           Sample.ready_page Sample.chat_call Sample.chat_page Hp).
Defined.

End WidgetFacts.

(** * Further properties *)

Module HeadersFacts.
Import JS.

Lemma find_set_existing_same n v h :
  toLowerCase n = n ->
  existsb (name_is n) h = true ->
  find (name_is n) (set_existing n v false h) = Some (n, v).
Proof.
  intros Hn. induction h as [|kv t IH]; cbn; [discriminate|].
  destruct (name_is n kv) eqn:E; cbn.
  - intros _. unfold name_is at 1. cbn. now rewrite Hn, String.eqb_refl.
  - intros H. rewrite E. auto.
Qed.

Lemma find_app_none {A} (f : A -> bool) l1 l2 :
  existsb f l1 = false -> find f (l1 ++ l2) = find f l2.
Proof.
  induction l1 as [|a l1 IH]; cbn; [reflexivity|].
  destruct (f a); cbn; [discriminate | exact IH].
Qed.

Lemma find_app_some {A} (f : A -> bool) l1 l2 x :
  find f l1 = Some x -> find f (l1 ++ l2) = Some x.
Proof.
  induction l1 as [|a l1 IH]; cbn; [discriminate|].
  destruct (f a); auto.
Qed.

Lemma find_none_existsb {A} (f : A -> bool) l :
  find f l = None <-> existsb f l = false.
Proof.
  induction l as [|a l IH]; cbn; [tauto|].
  destruct (f a); cbn; [split; discriminate | exact IH].
Qed.

(** [get] after [set] of the same name, in any letter case. *)
Lemma headers_get_set_same name name' v h :
  toLowerCase name' = toLowerCase name ->
  headers_get name' (headers_set name v h) = Some v.
Proof.
  intros Hc. unfold headers_get, headers_set. rewrite Hc.
  destruct (existsb (name_is (toLowerCase name)) h) eqn:E.
  - rewrite find_set_existing_same; auto. apply GatewayFacts.toLowerCase_idem.
  - rewrite find_app_none by exact E. cbn. unfold name_is. cbn.
    now rewrite GatewayFacts.toLowerCase_idem, String.eqb_refl.
Qed.

Lemma find_set_existing_other m n v seen h :
  toLowerCase n = n -> m <> n ->
  find (name_is m) (set_existing n v seen h) = find (name_is m) h.
Proof.
  intros Hn Hne. revert seen. induction h as [|kv t IH]; intros seen; cbn; [reflexivity|].
  destruct (name_is n kv) eqn:E.
  - assert (Hm : name_is m kv = false).
    { unfold name_is in *. apply String.eqb_eq in E. apply String.eqb_neq. congruence. }
    rewrite Hm. destruct seen; [apply IH|].
    cbn. unfold name_is at 1. cbn. rewrite Hn.
    assert (String.eqb n m = false) as -> by (apply String.eqb_neq; congruence).
    apply IH.
  - cbn. destruct (name_is m kv); [reflexivity | apply IH].
Qed.

(** [get] after [set] of another name. *)
Lemma headers_get_set_other name name' v h :
  toLowerCase name' <> toLowerCase name ->
  headers_get name' (headers_set name v h) = headers_get name' h.
Proof.
  intros Hc. unfold headers_get, headers_set.
  destruct (existsb (name_is (toLowerCase name)) h) eqn:E.
  - rewrite find_set_existing_other; auto. apply GatewayFacts.toLowerCase_idem.
  - destruct (find (name_is (toLowerCase name')) h) as [kv|] eqn:F.
    + now rewrite (find_app_some _ _ _ _ F).
    + apply find_none_existsb in F. rewrite find_app_none by exact F. cbn.
      unfold name_is. cbn. rewrite GatewayFacts.toLowerCase_idem.
      assert (String.eqb (toLowerCase name) (toLowerCase name') = false) as ->
        by (apply String.eqb_neq; congruence).
      reflexivity.
Qed.

End HeadersFacts.

Module GatewayLaws.
Import JS Gateway.

Lemma headers_set_fresh name v h :
  existsb (name_is (toLowerCase name)) h = false ->
  headers_set name v h = h ++ [(toLowerCase name, v)].
Proof. unfold headers_set. now intros ->. Qed.

Lemma existsb_name_is_false n (h : Headers) :
  ~ In n (map (fun kv => toLowerCase (fst kv)) h) -> existsb (name_is n) h = false.
Proof.
  induction h as [|kv t IH]; cbn; [reflexivity|].
  intros H. unfold name_is at 1.
  destruct (String.eqb_spec (toLowerCase (fst kv)) n) as [E|E]; [tauto|].
  cbn. apply IH. tauto.
Qed.

Lemma copy_loop_distinct (h acc : Headers) :
  List.NoDup (map (fun kv => toLowerCase (fst kv)) (acc ++ h)) ->
  fold_left
    (fun acc kv => if negb (reserved kv) then headers_set (fst kv) (snd kv) acc else acc)
    h acc
  = acc ++ map (fun kv => (toLowerCase (fst kv), snd kv))
             (List.filter (fun kv => negb (reserved kv)) h).
Proof.
  revert acc. induction h as [|kv t IH]; intros acc Hnd; cbn [fold_left List.filter map].
  - now rewrite app_nil_r.
  - rewrite map_app in Hnd. cbn [map] in Hnd.
    pose proof (NoDup_remove_1 _ _ _ Hnd) as Hrest.
    pose proof (NoDup_remove_2 _ _ _ Hnd) as Hfresh.
    destruct (negb (reserved kv)) eqn:E.
    + rewrite headers_set_fresh.
      2:{ apply existsb_name_is_false. intros Hin. apply Hfresh. apply in_or_app. now left. }
      rewrite IH.
      * cbn [map]. now rewrite <- app_assoc.
      * rewrite <- app_assoc, map_app. cbn [app map fst].
        now rewrite GatewayFacts.toLowerCase_idem.
    + apply IH. now rewrite map_app.
Qed.

Lemma copy_headers_distinct (h : Headers) :
  List.NoDup (map (fun kv => toLowerCase (fst kv)) h) ->
  copy_headers h
  = map (fun kv => (toLowerCase (fst kv), snd kv))
      (List.filter (fun kv => negb (reserved kv)) h).
Proof. intros H. unfold copy_headers. now rewrite copy_loop_distinct. Qed.

Lemma headers_get_kept name (h : Headers) :
  startsWith "x-scopeblind" (toLowerCase name) = false ->
  headers_get name
    (map (fun kv => (toLowerCase (fst kv), snd kv))
       (List.filter (fun kv => negb (reserved kv)) h))
  = headers_get name h.
Proof.
  intros Hn. unfold headers_get.
  induction h as [|kv t IH]; cbn [List.filter map find]; [reflexivity|].
  destruct (name_is (toLowerCase name) kv) eqn:E.
  - assert (Hr : reserved kv = false).
    { unfold reserved. unfold name_is in E. apply String.eqb_eq in E. now rewrite E. }
    rewrite Hr. cbn [negb map find]. unfold name_is at 1. cbn [fst snd].
    rewrite GatewayFacts.toLowerCase_idem. unfold name_is in E. now rewrite E.
  - destruct (negb (reserved kv)); [|exact IH].
    cbn [map find]. unfold name_is at 1. cbn [fst].
    rewrite GatewayFacts.toLowerCase_idem. unfold name_is in E. now rewrite E.
Qed.

(** X5. A [Headers] object yields every name once.  Then the request to the
    backend has the host of the target URL as Host header, and every other
    inbound header that is not reserved reaches the backend with its
    value. *)
Theorem other_headers_reach_the_backend target req :
  List.NoDup (map (fun kv => toLowerCase (fst kv)) (headers req)) ->
  headers_get "Host" (bc_headers (backend_call target req)) = Some (url_host target)
  /\ forall name value,
       headers_get name (headers req) = Some value ->
       reserved (name, value) = false ->
       toLowerCase name <> "host" ->
       headers_get name (bc_headers (backend_call target req)) = Some value.
Proof.
  intros Hd. cbn [bc_headers backend_call]. split.
  - now apply HeadersFacts.headers_get_set_same.
  - intros name value Hg Hr Hh.
    rewrite HeadersFacts.headers_get_set_other by exact Hh.
    rewrite (copy_headers_distinct _ Hd), headers_get_kept; [exact Hg | exact Hr].
Qed.

Section Handler.
Variable new_URL : string -> string -> option URL.
Variable verifier : VerifyCall -> FetchOutcome.
Variable backend : BackendCall -> FetchOutcome.

Local Abbreviation handler := (api_handler new_URL verifier backend).

Lemma forward_step_log env req made :
  snd (forward_step new_URL backend env req made) = made
  \/ exists backendUrl target,
       BACKEND_URL env = Some backendUrl /\ backendUrl <> ""
       /\ new_URL (path req) backendUrl = Some target
       /\ snd (forward_step new_URL backend env req made)
          = made ++ [CallBackend (backend_call target req)].
Proof.
  unfold forward_step.
  destruct (BACKEND_URL env) as [u|]; [|now left].
  destruct (String.eqb_spec u ""); [now left|].
  destruct (new_URL (path req) u) as [target|] eqn:Hh; [|now left].
  right. exists u, target. destruct (backend _); auto.
Qed.

(** X1. A request with no proof and no token header, or with empty ones, is
    not verified: the handler goes straight to the forwarding step and the
    verifier is never called. *)
Theorem request_without_proof_is_let_through env req :
  carries_proof req = false ->
  handler env req = forward_step new_URL backend env req []
  /\ forall c, ~ In (CallVerifier c) (snd (handler env req)).
Proof.
  intros Hp. unfold api_handler, verify_step. rewrite Hp. split; [reflexivity|].
  intros c. destruct (forward_step_log env req []) as [->|(u & host & _ & _ & _ & ->)].
  - intros [].
  - cbn. intros [H|[]]. discriminate.
Qed.

(** X2. Without a backend URL (unset or empty) the answer is never a relayed
    one and the backend is never called; the verifier is still consulted
    first, and a request that passes it is answered 500. *)
Theorem missing_backend_url_is_answered_500 env req :
  BACKEND_URL env = None \/ BACKEND_URL env = Some "" ->
  backend_calls (snd (handler env req)) = []
  /\ (carries_proof req = false ->
      handler env req = (JsonError 500 "BACKEND_URL not configured" None, []))
  /\ (forall vr j,
        carries_proof req = true ->
        verifier (verify_call env req) = Resolved vr -> ok vr = true -> json vr = Some j ->
        handler env req
        = (JsonError 500 "BACKEND_URL not configured" None,
           [CallVerifier (verify_call env req)])).
Proof.
  intros Hb.
  assert (Hf : forall made,
             forward_step new_URL backend env req made
             = (JsonError 500 "BACKEND_URL not configured" None, made)).
  { intros made. unfold forward_step. destruct Hb as [-> | ->]; reflexivity. }
  unfold api_handler. repeat split.
  - pose proof (GatewayFacts.verify_step_calls verifier env req) as Hv.
    destruct (verify_step verifier env req) as [[r calls]|made]; [exact Hv|].
    now rewrite Hf.
  - intros Hp. unfold verify_step. rewrite Hp. apply Hf.
  - intros vr j Hp Hv Hok Hj. unfold verify_step. rewrite Hp, Hv, Hok, Hj. apply Hf.
Qed.

(** X3. The handler calls the verifier at most once, the backend at most once,
    and the verifier before the backend; the backend call is the one built
    from the target that the URL parser gives for the request's path and
    [BACKEND_URL]. *)
Theorem handler_calls_verifier_then_backend env req :
  exists pre post,
    snd (handler env req) = pre ++ post
    /\ (pre = [] \/ pre = [CallVerifier (verify_call env req)])
    /\ (post = [] \/ exists backendUrl target,
                       BACKEND_URL env = Some backendUrl
                       /\ new_URL (path req) backendUrl = Some target
                       /\ post = [CallBackend (backend_call target req)]).
Proof.
  unfold api_handler.
  assert (Hv : match verify_step verifier env req with
               | inl (_, calls) => calls = [CallVerifier (verify_call env req)]
               | inr made => made = [] \/ made = [CallVerifier (verify_call env req)]
               end).
  { unfold verify_step. destruct (carries_proof req); [|now left].
    destruct (verifier _) as [msg|vr]; [reflexivity|].
    destruct (negb (ok vr)); [reflexivity|].
    destruct (json vr); [now right | reflexivity]. }
  destruct (verify_step verifier env req) as [[r calls]|made].
  - exists calls, []. cbn. rewrite app_nil_r. subst. auto.
  - destruct (forward_step_log env req made) as [->|(u & target & Hb & _ & Ht & ->)].
    + exists made, []. rewrite app_nil_r. auto.
    + exists made, [CallBackend (backend_call target req)]. eauto 8.
Qed.

(** X4. What the backend answered is relayed: same status, status text and
    body, the same headers except that Access-Control-Allow-Origin is
    set to the wildcard. *)
Theorem backend_response_is_relayed env req b r :
  In b (backend_calls (snd (handler env req))) ->
  backend b = Resolved r ->
  exists r',
    fst (handler env req) = Relayed r'
    /\ status r' = status r
    /\ statusText r' = statusText r
    /\ text r' = text r
    /\ headers_get "Access-Control-Allow-Origin" (resp_headers r') = Some "*"
    /\ forall name,
         toLowerCase name <> "access-control-allow-origin" ->
         headers_get name (resp_headers r') = headers_get name (resp_headers r).
Proof.
  unfold api_handler. pose proof (GatewayFacts.verify_step_calls verifier env req) as Hv.
  destruct (verify_step verifier env req) as [[r0 calls]|made].
  - cbn [snd]. rewrite Hv. intros [].
  - intros Hin Hr.
    apply (GatewayFacts.forward_step_calls new_URL backend) in Hin; [|exact Hv].
    destruct Hin as (u & host & _ & _ & -> & Hreply).
    rewrite Hr in Hreply. eexists. split; [exact Hreply|]. cbn.
    repeat split.
    + now apply HeadersFacts.headers_get_set_same.
    + intros name Hn. now apply HeadersFacts.headers_get_set_other.
Qed.

End Handler.
End GatewayLaws.

Module VoprfLaws.
Import JS Effect Browser Voprf.

(** X6. Before the first blind there is nothing to finalize with: [finalize]
    throws and the client stays as it was. *)
Theorem finalize_before_blind_throws env evaluation (c : Client) :
  finData c = None ->
  is_ok (fst (finalize env evaluation c)) = false
  /\ snd (finalize env evaluation c) = c.
Proof.
  intros H. split; [|apply VoprfFacts.finalize_keeps_context].
  unfold finalize, bind, defined, get, ret, throw. destruct c as [fd]. cbn in *. subst.
  destruct (voprf_deserialize env evaluation); reflexivity.
Qed.

(** X7. A blind replaces the stored context: after two blinds [finalize] works
    with the context of the second, whatever the first was; the first
    context is gone. *)
Theorem second_blind_replaces_the_context env n1 input1 n2 input2 fd1 request1 fd2 request2
    evaluation (c : Client) :
  voprf_blind env n1 (utf8 input1) = Some (fd1, request1) ->
  voprf_blind env n2 (utf8 input2) = Some (fd2, request2) ->
  let c1 := snd (generateBlindRequest env n1 input1 c) in
  let c2 := snd (generateBlindRequest env n2 input2 c1) in
  finData c1 = Some fd1
  /\ finData c2 = Some fd2
  /\ finalize env evaluation c2 = finalize env evaluation {| finData := Some fd2 |}.
Proof.
  intros H1 H2. cbn zeta.
  rewrite (VoprfFacts.generateBlindRequest_ok env n1 input1 c fd1 request1 H1). cbn [snd].
  rewrite (VoprfFacts.generateBlindRequest_ok env n2 input2 _ fd2 request2 H2). cbn [snd].
  auto.
Qed.

Lemma utf8_String c s : utf8 (String c s) = byte_of_ascii c :: utf8 s.
Proof. reflexivity. Qed.

Lemma utf8_app s1 s2 : utf8 (s1 +:+ s2) = utf8 s1 ++ utf8 s2.
Proof.
  induction s1 as [|c s1 IH]; [reflexivity|].
  change (utf8 (String c (s1 +:+ s2)) = utf8 (String c s1) ++ utf8 s2).
  rewrite !utf8_String. cbn [app]. now f_equal.
Qed.

(** X8. The spend proof is made from the token and the data run together, with
    nothing in between: text moved from the end of the token to the front
    of the data gives the same proof. *)
Theorem spend_proof_runs_token_and_data_together env token (moved data : string) (b : State) :
  generateSpendProof env (token ++ utf8 moved) data b
  = generateSpendProof env token (moved +:+ data) b.
Proof.
  unfold generateSpendProof. now rewrite utf8_app, <- app_assoc.
Qed.

End VoprfLaws.

Module HolderBindingLaws.
Import JS Effect Browser HolderBinding.

(** X9. On a first visit with working key generation the identity is the
    exported public key, both keys are stored, nothing is written to
    [localStorage], and from then on [signRequest] signs the canonical
    string method:path:body with the private key of that pair. *)
Theorem first_visit_creates_a_signing_identity env c s kp spki (b : State) :
  crypto env = Some c -> subtle c = Some s ->
  indexedDB_opens env = true ->
  database b = NoDatabase ->
  generateKey s (draws b) = Some kp ->
  exportKey s (publicKey kp) = Some spki ->
  let b' := snd (getOrCreateDeviceIdentity env b) in
  fst (getOrCreateDeviceIdentity env b)
  = Ok {| type := webcrypto; di_publicKey := Some spki; deviceId := None |}
  /\ database b'
     = Store {| idb_publicKey := Some spki; idb_privateKey := Some (privateKey kp) |}
  /\ localStorage b' = localStorage b
  /\ getOrCreateDeviceIdentity env b'
     = (Ok {| type := webcrypto; di_publicKey := Some spki; deviceId := None |}, b')
  /\ forall method path body,
       fst (signRequest env method path body b')
       = match sign s (privateKey kp)
                 (utf8 (method +:+ ":" +:+ path +:+ ":" +:+ or_else body "")) with
         | Some signature => Ok (Some (btoa env signature))
         | None => Ok None
         end.
Proof.
  intros Hc Hs Ho Hd Hg He. destruct b as [ls db dr cs ck]. cbn in Hd, Hg. subst db.
  unfold_holder. cbn. rewrite Hc, Hs, Ho. cbn. rewrite Hg. cbn. rewrite He. cbn.
  repeat split. intros method path body.
  destruct (sign s _ _); reflexivity.
Qed.

(** X10. Once a public key is stored the identity is that key: no key is
    generated, no randomness is drawn and nothing changes. *)
Theorem stored_identity_is_returned env c s st pk (b : State) :
  crypto env = Some c -> subtle c = Some s ->
  indexedDB_opens env = true ->
  database b = Store st ->
  idb_publicKey st = Some pk ->
  getOrCreateDeviceIdentity env b
  = (Ok {| type := webcrypto; di_publicKey := Some pk; deviceId := None |}, b).
Proof.
  intros Hc Hs Ho Hd Hp. destruct b as [ls db dr cs ck]. cbn in Hd. subst db.
  unfold_holder. cbn. rewrite Hc, Hs, Ho. cbn. rewrite Hp. reflexivity.
Qed.


(** X12. [signRequest] never throws and only reads: apart from bringing the
    database into existence (without the object store) it changes
    nothing. *)
Theorem signRequest_only_reads env method path body (b : State) :
  let b' := snd (signRequest env method path body b) in
  is_ok (fst (signRequest env method path body b)) = true
  /\ localStorage b' = localStorage b
  /\ draws b' = draws b
  /\ calls b' = calls b
  /\ clock b' = clock b
  /\ database b'
     = match database b with
       | NoDatabase => if indexedDB_opens env then NoObjectStore else NoDatabase
       | d => d
       end.
Proof.
  cbn zeta. split; [apply HolderBindingFacts.signRequest_returns|].
  destruct b as [ls db dr cs ck]. unfold_holder. cbn.
  destruct (indexedDB_opens env); cbn; [|destruct db; auto].
  destruct db as [| |st]; cbn; [auto | auto |].
  crunch; auto.
Qed.

(** X13. A database that exists without the object store stays that way, and
    with it the identity is never the strong one: a [signRequest] made on a
    first visit before any identity was created leaves such a database. *)
Theorem signing_first_rules_out_the_strong_identity env method path body (b : State) :
  indexedDB_opens env = true ->
  database b = NoDatabase ->
  let b1 := snd (signRequest env method path body b) in
  let r := getOrCreateDeviceIdentity env b1 in
  fst (signRequest env method path body b) = Ok None
  /\ database b1 = NoObjectStore
  /\ database (snd r) = NoObjectStore
  /\ (forall di, fst r = Ok di -> type di = fallback).
Proof.
  intros Ho Hd. destruct b as [ls db dr cs ck]. cbn in Hd. subst db.
  unfold_holder. cbn. rewrite Ho. cbn.
  repeat split.
  - crunch; reflexivity.
  - crunch; intros di [= <-]; reflexivity.
Qed.

End HolderBindingLaws.

Module UILaws.
Import UI.

Lemma classList_add_idem c e : classList_add c (classList_add c e) = classList_add c e.
Proof.
  unfold classList_add at 1. now rewrite UIFacts.classList_add_has.
Qed.

Lemma classList_remove_gone c e :
  existsb (String.eqb c) (classList (classList_remove c e)) = false.
Proof.
  unfold classList_remove. cbn. induction (classList e) as [|x l IH]; cbn; [reflexivity|].
  destruct (String.eqb c x) eqn:E; cbn; [exact IH|]. now rewrite E.
Qed.

(** X16. The quota modal is created once: showing it again changes nothing, an
    existing modal is reused, and the badge is not touched. *)
Theorem quota_modal_is_created_once ui :
  showQuotaExceeded (showQuotaExceeded ui) = showQuotaExceeded ui
  /\ badge (showQuotaExceeded ui) = badge ui
  /\ (forall e, modal ui = Some e ->
        modal (showQuotaExceeded ui) = Some (classList_add "visible" e)).
Proof.
  destruct ui as [b [e|]]; unfold showQuotaExceeded, createModal; cbn.
  - rewrite classList_add_idem. repeat split. now intros e' [= ->].
  - repeat split. discriminate.
Qed.

(** X17. Closing hides the modal but keeps it; a click inside the dialog does
    not close; showing again after a close makes it visible again. *)
Theorem closed_modal_can_be_shown_again ui :
  quota_modal_visible (click_close (showQuotaExceeded ui)) = false
  /\ quota_modal_visible (click_overlay true (showQuotaExceeded ui)) = false
  /\ click_overlay false (showQuotaExceeded ui) = showQuotaExceeded ui
  /\ (exists e, modal (click_close (showQuotaExceeded ui)) = Some e)
  /\ quota_modal_visible (showQuotaExceeded (click_close (showQuotaExceeded ui))) = true.
Proof.
  assert (H : quota_modal_visible (click_close (showQuotaExceeded ui)) = false).
  { destruct ui as [b [e|]]; unfold quota_modal_visible, click_close, showQuotaExceeded,
      createModal; cbn [modal badge option_map]; apply classList_remove_gone. }
  repeat split; try exact H.
  - destruct ui as [b [e|]]; cbn; eauto.
  - apply UIFacts.showQuotaExceeded_visible.
Qed.

End UILaws.

Module WidgetLaws.
Import JS Effect Browser HolderBinding Widget EffectFacts WidgetFacts.

(** *** The base64url translation *)

Lemma includes_replace_gone a b s : a <> b -> includes a (replace_char a b s) = false.
Proof.
  intros Hne. induction s as [|c s IH]; cbn; [reflexivity|]. rewrite IH, orb_false_r.
  destruct (Ascii.eqb_spec c a) as [->|E].
  - apply Ascii.eqb_neq. congruence.
  - now apply Ascii.eqb_neq.
Qed.

Lemma includes_replace_other x a b s :
  x <> b -> includes x s = false -> includes x (replace_char a b s) = false.
Proof.
  intros Hne. induction s as [|c s IH]; cbn; [reflexivity|].
  intros H. apply orb_false_elim in H as [H1 H2]. rewrite (IH H2), orb_false_r.
  destruct (Ascii.eqb c a); [|exact H1]. apply Ascii.eqb_neq. congruence.
Qed.

Lemma includes_strip x s : includes x s = false -> includes x (strip_padding s) = false.
Proof.
  induction s as [|c s IH]; cbn; [reflexivity|].
  intros H. apply orb_false_elim in H as [H1 H2].
  destruct (Ascii.eqb c "=" && String.eqb (strip_padding s) ""); cbn; [reflexivity|].
  now rewrite H1, IH.
Qed.

Lemma strip_padding_no_tail s s' : strip_padding s <> s' +:+ "=".
Proof.
  revert s'. induction s as [|c s IH]; intros s' H; cbn in H.
  - destruct s'; discriminate.
  - destruct (Ascii.eqb_spec c "=") as [->|Hc]; cbn in H.
    + destruct (String.eqb_spec (strip_padding s) "") as [E|E].
      * destruct s'; discriminate.
      * destruct s' as [|a s']; cbn in H.
        -- injection H as H. now apply E.
        -- injection H as _ H. now apply (IH s').
    + destruct s' as [|a s']; cbn in H.
      * injection H as H _. now apply Hc.
      * injection H as _ H. now apply (IH s').
Qed.

(** X18. What goes to the issuer is in the URL alphabet: it has no plus sign,
    no slash, and does not end in an equals sign, whatever [btoa]
    returned. *)
Theorem issuer_request_is_in_the_url_alphabet env (request : Bytes) :
  includes "+" (base64url_encode env request) = false
  /\ includes "/" (base64url_encode env request) = false
  /\ forall s, base64url_encode env request <> s +:+ "=".
Proof.
  unfold base64url_encode. repeat split.
  - apply includes_strip, includes_replace_other; [discriminate|].
    apply includes_replace_gone. discriminate.
  - apply includes_strip, includes_replace_gone. discriminate.
  - intros s. apply strip_padding_no_tail.
Qed.

Lemma replace_back a b s :
  includes b s = false -> replace_char b a (replace_char a b s) = s.
Proof.
  induction s as [|c s IH]; cbn; [reflexivity|].
  intros H. apply orb_false_elim in H as [H1 H2]. rewrite (IH H2). f_equal.
  destruct (Ascii.eqb_spec c a) as [->|E].
  - now rewrite Ascii.eqb_refl.
  - now rewrite H1.
Qed.

Lemma replace_char_empty a b s : String.eqb (replace_char a b s) "" = String.eqb s "".
Proof. destruct s; reflexivity. Qed.

Lemma strip_replace a b s :
  a <> "="%char -> b <> "="%char ->
  strip_padding (replace_char a b s) = replace_char a b (strip_padding s).
Proof.
  intros Ha Hb. induction s as [|c s IH]; cbn; [reflexivity|].
  rewrite IH, replace_char_empty.
  destruct (Ascii.eqb_spec c a) as [->|E].
  - assert (Ascii.eqb a "=" = false) as -> by now apply Ascii.eqb_neq.
    assert (Ascii.eqb b "=" = false) as -> by now apply Ascii.eqb_neq.
    cbn. now rewrite Ascii.eqb_refl.
  - destruct (Ascii.eqb c "=" && String.eqb (strip_padding s) ""); cbn; [reflexivity|].
    apply Ascii.eqb_neq in E. now rewrite E.
Qed.

Lemma replace_comm a b c d s :
  a <> c -> b <> c -> d <> a ->
  replace_char c d (replace_char a b s) = replace_char a b (replace_char c d s).
Proof.
  intros H1 H2 H3. induction s as [|x s IH]; cbn; [reflexivity|]. rewrite IH. f_equal.
  destruct (Ascii.eqb_spec x a) as [->|Ea].
  - assert (Ascii.eqb b c = false) as -> by now apply Ascii.eqb_neq.
    assert (Ascii.eqb a c = false) as -> by now apply Ascii.eqb_neq.
    now rewrite Ascii.eqb_refl.
  - destruct (Ascii.eqb_spec x c) as [->|Ec].
    + assert (Ascii.eqb d a = false) as -> by now apply Ascii.eqb_neq. reflexivity.
    + apply Ascii.eqb_neq in Ea. now rewrite Ea.
Qed.

(** X19. Decoding what was encoded: when [btoa] stays in the base64 alphabet
    (no minus sign, no underscore), the widget's decoder hands [atob] the
    [btoa] text with its padding removed. *)
Theorem base64url_decode_of_encode env (b : Bytes) :
  includes "-" (btoa env b) = false ->
  includes "_" (btoa env b) = false ->
  base64url_decode env (base64url_encode env b) = atob env (strip_padding (btoa env b)).
Proof.
  intros H1 H2. unfold base64url_decode, base64url_encode. f_equal.
  rewrite !strip_replace by discriminate.
  rewrite (replace_comm "/" "_" "-" "+") by discriminate.
  rewrite (replace_back "+" "-") by now apply includes_strip.
  rewrite (replace_back "/" "_") by now apply includes_strip.
  reflexivity.
Qed.

(** *** Frames *)

Lemma token_key_is_not_the_device_key site : token_key site <> STORAGE_KEY.
Proof. unfold token_key, STORAGE_KEY. cbn. discriminate. Qed.

Lemma getOrCreateDeviceIdentity_frame env (b : State) :
  let b' := snd (getOrCreateDeviceIdentity env b) in
  calls b' = calls b
  /\ clock b' = clock b
  /\ forall k, k <> STORAGE_KEY -> localStorage b' !! k = localStorage b !! k.
Proof.
  destruct b as [ls db dr cs ck]. unfold_holder. cbn.
  crunch; repeat split; intros; cbn; rewrite ?lookup_insert_ne by congruence; reflexivity.
Qed.

Lemma generateSpendProof_state env tok data (b : State) :
  snd (Voprf.generateSpendProof env tok data b) = b.
Proof.
  unfold Voprf.generateSpendProof, crypto_subtle, bind, defined, ret, throw.
  crunch; reflexivity.
Qed.

Lemma signRequest_frame env method path body (b : State) :
  let b' := snd (signRequest env method path body b) in
  localStorage b' = localStorage b /\ draws b' = draws b
  /\ calls b' = calls b /\ clock b' = clock b.
Proof.
  destruct b as [ls db dr cs ck]. unfold_holder. cbn.
  crunch; auto.
Qed.

Lemma request_for_frame env options path p0 :
  let p1 := snd (request_for env options path p0) in
  widget p1 = widget p0
  /\ localStorage (browser p1) = localStorage (browser p0)
  /\ calls (browser p1) = calls (browser p0).
Proof.
  destruct p0 as [w b].
  unfold request_for, bind, get, defined, in_browser, zoom, lift, ret, throw.
  cbn [widget browser set_browser].
  destruct (token w) as [tok|]; [|now repeat split].
  match goal with
  | |- context [Voprf.generateSpendProof ?e ?t ?d ?s] =>
      pose proof (generateSpendProof_state e t d s) as Hg;
      destruct (Voprf.generateSpendProof e t d s) as [[proof|e'] b1]
  end; cbn in Hg; subst b1; cbn [widget browser set_browser]; [|now repeat split].
  destruct (headers_new (ri_headers options)) as [h0|e0]; [|now repeat split].
  destruct (set_header "X-ScopeBlind-Proof" proof h0) as [h1|e1]; [|now repeat split].
  destruct (set_header "X-ScopeBlind-Site" (siteId (config w)) h1) as [h2|e2];
    [|now repeat split].
  match goal with
  | |- context [signRequest ?e ?m ?pa ?bo ?s] =>
      pose proof (signRequest_frame e m pa bo s) as (Hl & _ & Hc & _);
      destruct (signRequest e m pa bo s) as [[signature|e'] b2]
  end; cbn in Hl, Hc; cbn [widget browser set_browser fst snd]; [|now repeat split].
  destruct (bind_holder signature (deviceIdentity w) h2); now repeat split.
Qed.

Lemma ensureToken_log env p :
  let p' := snd (ensureToken env p) in
  calls (browser p') = calls (browser p)
  \/ exists c, calls (browser p') = calls (browser p) ++ [CallIssuer c].
Proof.
  rewrite ensureToken_cases.
  destruct (token (widget p)); [now left|]. cbn zeta.
  destruct (truthy _).
  - destruct (parse_bytes env _); now left.
  - pose proof (mint_spec env p) as (_ & _ & [(H & _)|(c & H & _)]); eauto.
Qed.

Lemma ensureToken_cached env p t :
  token (widget p) = Some t -> ensureToken env p = (Ok t, p).
Proof. intros H. rewrite ensureToken_cases. now rewrite H. Qed.

Lemma proxy_calls_app l1 l2 : proxy_calls (l1 ++ l2) = proxy_calls l1 ++ proxy_calls l2.
Proof. unfold proxy_calls. apply flat_map_app. Qed.

Lemma issuer_calls_app l1 l2 : issuer_calls (l1 ++ l2) = issuer_calls l1 ++ issuer_calls l2.
Proof. unfold issuer_calls. apply flat_map_app. Qed.

(** The preparation of a request never calls the proxy and leaves the
    interface, the configuration and the device identity alone. *)
Lemma prepare_frame env url options p :
  let p1 := snd (prepare env url options p) in
  proxy_calls (calls (browser p1)) = proxy_calls (calls (browser p))
  /\ config (widget p1) = config (widget p)
  /\ ui (widget p1) = ui (widget p)
  /\ deviceIdentity (widget p1) = deviceIdentity (widget p)
  /\ (forall t, token (widget p) = Some t ->
        token (widget p1) = Some t
        /\ calls (browser p1) = calls (browser p)
        /\ localStorage (browser p1) = localStorage (browser p)).
Proof.
  unfold prepare, bind.
  pose proof (ensureToken_frame env p) as (Hcfg & Hui & Hdi & _).
  pose proof (ensureToken_log env p) as Hlog.
  assert (Hcached : forall t, token (widget p) = Some t -> ensureToken env p = (Ok t, p))
    by apply ensureToken_cached.
  destruct (ensureToken env p) as [[t0|e] p0]; cbn [fst snd] in *.
  2:{ repeat split; auto.
      - destruct Hlog as [->|[c ->]]; [reflexivity|].
        rewrite proxy_calls_app. cbn. now rewrite app_nil_r.
      - specialize (Hcached _ H). discriminate.
      - specialize (Hcached _ H). discriminate.
      - specialize (Hcached _ H). discriminate. }
  assert (Hp : proxy_calls (calls (browser p0)) = proxy_calls (calls (browser p))).
  { destruct Hlog as [->|[c ->]]; [reflexivity|].
    rewrite proxy_calls_app. cbn. now rewrite app_nil_r. }
  assert (Hstay : forall t, token (widget p) = Some t -> p0 = p /\ token (widget p0) = Some t).
  { intros t Ht. specialize (Hcached _ Ht). injection Hcached as _ ->. auto. }
  unfold defined. destruct (parseURL env url (origin env)) as [u|]; cbn -[request_for].
  - pose proof (request_for_frame env options (pathname u) p0) as (Hw & Hl & Hc).
    destruct (request_for env options (pathname u) p0) as [r p1]. cbn [snd] in *.
    rewrite Hw, Hc. repeat split; auto.
    + destruct (Hstay _ H) as [_ Ht]. exact Ht.
    + destruct (Hstay _ H) as [-> _]. reflexivity.
    + destruct (Hstay _ H) as [-> _]. exact Hl.
  - repeat split; auto.
    + destruct (Hstay _ H) as [_ Ht]. exact Ht.
    + destruct (Hstay _ H) as [-> _]. reflexivity.
    + destruct (Hstay _ H) as [-> _]. reflexivity.
Qed.

(** *** The token cache *)

(** X20. A token minted on one page load is read back on the next: a new widget
    instance for the same site over the same storage returns the same bytes
    without calling the issuer, provided the bytes survive
    [JSON.stringify] and [JSON.parse]. *)
Theorem minted_token_survives_a_reload env p t p' w0 :
  token (widget p) = None ->
  truthy (localStorage (browser p) !! token_key (siteId (config (widget p)))) = false ->
  ensureToken env p = (Ok t, p') ->
  stringify_bytes env t <> "" ->
  parse_bytes env (stringify_bytes env t) = Some t ->
  token w0 = None ->
  siteId (config w0) = siteId (config (widget p)) ->
  ensureToken env {| widget := w0; browser := browser p' |}
  = (Ok t, {| widget := set_token (Some t) w0; browser := browser p' |}).
Proof.
  intros Ht Hs He Hne Hrt Hw0 Hsite.
  rewrite ensureToken_cases, Ht in He. cbn zeta in He. rewrite Hs in He.
  pose proof (mint_spec env p) as (_ & Hr & _). rewrite He in Hr. cbn [fst snd] in Hr.
  destruct Hr as [_ Hls].
  apply stored_token_is_read_back; cbn [widget browser]; auto.
  rewrite Hsite, Hls. apply lookup_insert_eq.
Qed.

(** X21. A stored token that does not parse is never replaced: [ensureToken]
    throws without touching anything, so it throws again on every later
    call, and [fetch] throws with it before any network call. *)
Theorem corrupt_stored_token_blocks_the_widget env p s :
  token (widget p) = None ->
  localStorage (browser p) !! token_key (siteId (config (widget p))) = Some s ->
  s <> "" ->
  parse_bytes env s = None ->
  ensureToken env p = (Throw (SyntaxError "JSON.parse"), p)
  /\ forall url options, fetch env url options p = (Throw (SyntaxError "JSON.parse"), p).
Proof.
  intros Ht Hs Hne Hp.
  assert (He : ensureToken env p = (Throw (SyntaxError "JSON.parse"), p)).
  { rewrite ensureToken_cases, Ht. cbn zeta. rewrite Hs. cbn.
    apply String.eqb_neq in Hne. now rewrite Hne, Hp. }
  split; [exact He|]. intros url options.
  apply fetch_prepare_throws. unfold prepare. now rewrite (bind_throw _ _ _ _ _ He).
Qed.

Lemma init_steps env c p :
  let p0 := set_widget (set_config
              {| siteId := siteId c;
                 issuerUrl := Some (or_else (issuerUrl c) default_issuer);
                 proxyUrl := Some (or_else (proxyUrl c) default_proxy);
                 showBadge := Some (match showBadge c with Some false => false | _ => true end) |}
              (widget p)) p in
  init env c p =
    match getOrCreateDeviceIdentity env (browser p) with
    | (Throw e, b1) => (Throw e, set_browser b1 p0)
    | (Ok di, b1) =>
        let w1 := set_deviceIdentity (Some di) (widget p0) in
        let w2 := match showBadge c with
                  | Some false => w1
                  | _ => set_ui (UI.showBadge (ui w1)) w1
                  end in
        match ensureToken env {| widget := w2; browser := b1 |} with
        | (Ok _, p') => (Ok tt, p')
        | (Throw e, p') => (Throw e, p')
        end
    end.
Proof.
  destruct p as [w b]. unfold init, bind, update, modify, get, in_browser, zoom, ret.
  cbn -[ensureToken getOrCreateDeviceIdentity].
  destruct (getOrCreateDeviceIdentity env b) as [[di|e] b1]; cbn -[ensureToken]; [|reflexivity].
  destruct (showBadge c) as [[|]|]; cbn -[ensureToken];
    destruct (ensureToken env _) as [[t|e] p']; reflexivity.
Qed.

(** X22. The in-memory token is not tied to a site: initialising the widget
    again for another site keeps the token it has, calls no server, and
    stores nothing under the new site's key. *)
Theorem token_is_kept_across_sites env c p t :
  token (widget p) = Some t ->
  let p' := snd (init env c p) in
  token (widget p') = Some t
  /\ siteId (config (widget p')) = siteId c
  /\ calls (browser p') = calls (browser p)
  /\ localStorage (browser p') !! token_key (siteId c)
     = localStorage (browser p) !! token_key (siteId c).
Proof.
  intros Ht. cbn zeta. rewrite init_steps. cbn zeta.
  pose proof (getOrCreateDeviceIdentity_frame env (browser p)) as (Hc & _ & Hl).
  specialize (Hl _ (token_key_is_not_the_device_key (siteId c))).
  destruct (getOrCreateDeviceIdentity env (browser p)) as [[di|e] b1]; cbn [snd] in *.
  - rewrite ensureToken_cached with (t := t).
    + cbn. destruct (showBadge c) as [[|]|]; cbn; auto.
    + destruct (showBadge c) as [[|]|]; cbn; exact Ht.
  - cbn. auto.
Qed.

(** X23. [init] stores the configuration with the production endpoints in place
    of a missing or empty issuer or proxy URL, whatever happens next; when
    it succeeds the widget has a device identity and a token, and the badge
    unless [showBadge] is [false]. *)
Theorem init_configures_then_mints env c p :
  let r := fst (init env c p) in
  let p' := snd (init env c p) in
  config (widget p')
  = {| siteId := siteId c;
       issuerUrl := Some (or_else (issuerUrl c) default_issuer);
       proxyUrl := Some (or_else (proxyUrl c) default_proxy);
       showBadge := Some (match showBadge c with Some false => false | _ => true end) |}
  /\ (r = Ok tt ->
      (exists di, deviceIdentity (widget p') = Some di)
      /\ (exists t, token (widget p') = Some t)
      /\ (showBadge c <> Some false -> UI.badge (ui (widget p')) <> None)).
Proof.
  cbn zeta. rewrite init_steps. cbn zeta.
  destruct (getOrCreateDeviceIdentity env (browser p)) as [[di|e] b1].
  2:{ cbn. split; [reflexivity | discriminate]. }
  match goal with
  | |- context [ensureToken env ?q] =>
      pose proof (ensureToken_frame env q) as (Hcfg & Hui & Hdi & _);
      pose proof (ensureToken_ok_token env q) as Htok;
      destruct (ensureToken env q) as [[t|e] p']
  end; cbn [fst snd] in *.
  - rewrite Hcfg, Hui, Hdi. split; [|intros _; repeat split].
    + destruct (showBadge c) as [[|]|]; reflexivity.
    + destruct (showBadge c) as [[|]|]; cbn; eauto.
    + exists t. now apply Htok.
    + destruct (showBadge c) as [[|]|]; cbn; intros H;
        try (exfalso; now apply H);
        unfold UI.showBadge; destruct (UI.badge (ui (widget p))) eqn:E; cbn; congruence.
  - rewrite Hcfg. split; [|discriminate].
    destruct (showBadge c) as [[|]|]; reflexivity.
Qed.

(** X24. When no device identity can be had, [init] stops there: it throws the
    same exception, no token is minted, no server is called, and the badge
    is not shown. *)
Theorem init_stops_without_an_identity env c p e b1 :
  getOrCreateDeviceIdentity env (browser p) = (Throw e, b1) ->
  let p' := snd (init env c p) in
  fst (init env c p) = Throw e
  /\ token (widget p') = token (widget p)
  /\ deviceIdentity (widget p') = deviceIdentity (widget p)
  /\ ui (widget p') = ui (widget p)
  /\ calls (browser p') = calls (browser p).
Proof.
  intros H. cbn zeta. rewrite init_steps. cbn zeta.
  pose proof (getOrCreateDeviceIdentity_frame env (browser p)) as (Hc & _).
  rewrite H in *. cbn in *. auto.
Qed.

(** *** Requests *)

Lemma headers_get_map (g : string -> string) name (l : Headers) :
  headers_get name (map (fun kv => (toLowerCase (fst kv), g (snd kv))) l)
  = option_map g (headers_get name l).
Proof.
  unfold headers_get. induction l as [|kv t IH]; cbn [map find]; [reflexivity|].
  unfold name_is at 1 3. cbn [fst snd]. rewrite GatewayFacts.toLowerCase_idem.
  destruct (String.eqb (toLowerCase (fst kv)) (toLowerCase name)); [reflexivity | exact IH].
Qed.

Lemma trim_end_plain s :
  all_chars (fun c => negb (http_whitespace c)) s = true -> trim_end s = s.
Proof.
  induction s as [|c r IH]; cbn; [reflexivity|].
  intros H. apply andb_prop in H as [Hc Hr]. rewrite (IH Hr).
  apply negb_true_iff in Hc. now rewrite Hc.
Qed.

(** A value without HTTP whitespace is its own normal form. *)
Lemma normalize_value_plain s :
  all_chars (fun c => negb (http_whitespace c)) s = true -> normalize_value s = s.
Proof.
  intros H. unfold normalize_value.
  assert (E : trim_start s = s).
  { destruct s as [|c r]; [reflexivity|]. cbn in *.
    apply andb_prop in H as [Hc _]. apply negb_true_iff in Hc. now rewrite Hc. }
  rewrite E. now apply trim_end_plain.
Qed.

Lemma headers_append_fresh name v h :
  existsb (name_is (toLowerCase name)) h = false ->
  headers_append name v h = h ++ [(toLowerCase name, v)].
Proof. unfold headers_append. now intros ->. Qed.

Lemma append_loop_throw e (init : list (string * string)) :
  fold_left
    (fun acc kv =>
       match acc with
       | Ok h => append_header (fst kv) (snd kv) h
       | Throw e => Throw e
       end) init (Throw e)
  = Throw e.
Proof. induction init as [|kv t IH]; [reflexivity | exact IH]. Qed.

(** What [new Headers(init)] holds when it does not throw: every pair was
    valid, and when [init] has every name once, the pairs in order, with
    the names in lower case and the values normalised. *)
Lemma append_loop_ok (init : list (string * string)) acc h0 :
  fold_left
    (fun acc kv =>
       match acc with
       | Ok h => append_header (fst kv) (snd kv) h
       | Throw e => Throw e
       end) init (Ok acc)
  = Ok h0 ->
  Forall (fun kv => header_name (fst kv) = true
                    /\ header_value (normalize_value (snd kv)) = true) init
  /\ (List.NoDup (map (fun kv => toLowerCase (fst kv)) (acc ++ init)) ->
      h0 = acc ++ map (fun kv => (toLowerCase (fst kv), normalize_value (snd kv))) init).
Proof.
  revert acc. induction init as [|kv t IH]; intros acc; cbn [fold_left map].
  - intros [= <-]. split; [constructor | now rewrite app_nil_r].
  - unfold append_header at 2.
    destruct (header_name (fst kv)) eqn:Hn; cbn [andb];
      [|rewrite append_loop_throw; discriminate].
    destruct (header_value (normalize_value (snd kv))) eqn:Hv;
      [|rewrite append_loop_throw; discriminate].
    intros H. apply IH in H as [Hall Hshape]. split; [constructor; auto|].
    intros Hnd. rewrite map_app in Hnd. cbn [map] in Hnd.
    pose proof (NoDup_remove_2 _ _ _ Hnd) as Hfresh.
    assert (Hf : headers_append (fst kv) (normalize_value (snd kv)) acc
                 = acc ++ [(toLowerCase (fst kv), normalize_value (snd kv))]).
    { apply headers_append_fresh, GatewayLaws.existsb_name_is_false.
      intros Hin. apply Hfresh. apply in_or_app. now left. }
    rewrite Hf in Hshape. rewrite Hshape.
    + now rewrite <- app_assoc.
    + rewrite <- app_assoc, map_app. cbn [app map fst].
      now rewrite GatewayFacts.toLowerCase_idem.
Qed.

Lemma headers_new_valid init h0 :
  headers_new init = Ok h0 ->
  Forall (fun kv => header_name (fst kv) = true
                    /\ header_value (normalize_value (snd kv)) = true) init.
Proof. intros H. now apply append_loop_ok in H. Qed.

Lemma headers_new_get init h0 name :
  headers_new init = Ok h0 ->
  List.NoDup (map (fun kv => toLowerCase (fst kv)) init) ->
  headers_get name h0 = option_map normalize_value (headers_get name init).
Proof.
  intros H Hnd. apply append_loop_ok in H as [_ H].
  rewrite (H Hnd). apply headers_get_map.
Qed.

Lemma bind_holder_other signature di h h' name :
  bind_holder signature di h = Ok h' ->
  toLowerCase name <> "x-scopeblind-signature" ->
  toLowerCase name <> "x-scopeblind-device" ->
  headers_get name h' = headers_get name h.
Proof.
  intros H H1 H2. unfold bind_holder in H.
  destruct (truthy signature).
  - apply set_header_ok_inv in H as (_ & _ & ->).
    now apply HeadersFacts.headers_get_set_other.
  - destruct di as [[[|] pk id]|]; try (now injection H as <-).
    destruct (truthy id); [|now injection H as <-].
    apply set_header_ok_inv in H as (_ & _ & ->).
    now apply HeadersFacts.headers_get_set_other.
Qed.

(** The headers of a prepared request, read by name. *)
Lemma prepared_headers env url options p call p1 :
  prepare env url options p = (Ok call, p1) ->
  exists h0,
    headers_new (ri_headers options) = Ok h0
    /\ header_value (normalize_value (siteId (config (widget p)))) = true
    /\ headers_get "X-ScopeBlind-Site" (ri_headers (pc_init call))
       = Some (normalize_value (siteId (config (widget p))))
    /\ (exists proof, headers_get "X-ScopeBlind-Proof" (ri_headers (pc_init call)) = Some proof)
    /\ forall name,
         toLowerCase name <> "x-scopeblind-proof" ->
         toLowerCase name <> "x-scopeblind-site" ->
         toLowerCase name <> "x-scopeblind-signature" ->
         toLowerCase name <> "x-scopeblind-device" ->
         headers_get name (ri_headers (pc_init call)) = headers_get name h0.
Proof.
  intros H. apply prepare_ok_inv in H as (t & p0 & u & He & Hu & Hr).
  pose proof (ensureToken_frame env p) as (Hcfg & _). rewrite He in Hcfg. cbn [snd] in Hcfg.
  apply request_for_ok_inv in Hr
    as (tok & proof & b1 & h0 & h1 & h2 & sig & b2 & headers
        & _ & _ & H0 & H1 & H2 & _ & H3 & _ & ->).
  cbn [pc_init ri_headers]. rewrite Hcfg in H2.
  apply set_header_ok_inv in H1 as (_ & _ & ->).
  apply set_header_ok_inv in H2 as (_ & Hsite & ->).
  exists h0. split; [exact H0|]. split; [exact Hsite|]. repeat split.
  - rewrite (bind_holder_other _ _ _ _ _ H3) by (cbn; discriminate).
    now apply HeadersFacts.headers_get_set_same.
  - exists (normalize_value proof).
    rewrite (bind_holder_other _ _ _ _ _ H3) by (cbn; discriminate).
    rewrite HeadersFacts.headers_get_set_other by (cbn; discriminate).
    now apply HeadersFacts.headers_get_set_same.
  - intros name N1 N2 N3 N4. rewrite (bind_holder_other _ _ _ _ _ H3) by assumption.
    rewrite !HeadersFacts.headers_get_set_other by assumption. reflexivity.
Qed.

(** X25. The request to the proxy always names the configured site and carries
    a spend proof, replacing whatever the caller put under those two
    names.  The caller's headers were all valid, or no request would have
    been prepared; when the caller names every header once, a header under
    another name goes through with its value normalised (the blanks at
    both ends removed), and no other header is added. *)
Theorem fetch_sets_site_and_proof_headers env url options p call p1 :
  prepare env url options p = (Ok call, p1) ->
  headers_get "X-ScopeBlind-Site" (ri_headers (pc_init call))
  = Some (normalize_value (siteId (config (widget p))))
  /\ (exists proof, headers_get "X-ScopeBlind-Proof" (ri_headers (pc_init call)) = Some proof)
  /\ Forall (fun kv => header_name (fst kv) = true
                       /\ header_value (normalize_value (snd kv)) = true)
       (ri_headers options)
  /\ (List.NoDup (map (fun kv => toLowerCase (fst kv)) (ri_headers options)) ->
      forall name,
        toLowerCase name <> "x-scopeblind-proof" ->
        toLowerCase name <> "x-scopeblind-site" ->
        toLowerCase name <> "x-scopeblind-signature" ->
        toLowerCase name <> "x-scopeblind-device" ->
        headers_get name (ri_headers (pc_init call))
        = option_map normalize_value (headers_get name (ri_headers options)))
  /\ ri_method (pc_init call) = ri_method options
  /\ ri_body (pc_init call) = ri_body options.
Proof.
  intros H.
  destruct (prepared_headers env url options p call p1 H) as (h0 & H0 & _ & H1 & H2 & H3).
  split; [exact H1|]. split; [exact H2|]. split; [now apply headers_new_valid in H0|].
  split.
  - intros Hnd name N1 N2 N3 N4. rewrite H3 by assumption.
    now apply headers_new_get.
  - apply prepare_ok_inv in H as (t & p0 & u & _ & _ & Hr).
    apply request_for_ok_inv in Hr
      as (? & ? & ? & ? & ? & ? & ? & ? & ? & _ & _ & _ & _ & _ & _ & _ & _ & ->).
    split; reflexivity.
Qed.

(** X26. Without [crypto.subtle] no spend proof can be made: every [fetch]
    throws, and the proxy is not called. *)
Theorem fetch_needs_subtle env url options p :
  window_crypto_subtle env = None ->
  is_ok (fst (fetch env url options p)) = false
  /\ proxy_calls (calls (browser (snd (fetch env url options p)))) = proxy_calls (calls (browser p)).
Proof.
  intros Hs. pose proof (prepare_frame env url options p) as (Hp & _).
  destruct (prepare env url options p) as [[call|e] p1] eqn:H.
  - exfalso. apply prepare_ok_inv in H as (t & p0 & u & _ & _ & Hr).
    apply request_for_ok_inv in Hr
      as (tok & proof & b1 & h0 & h1 & h2 & sig & b2 & headers & _ & Hg & _).
    pose proof (VoprfFacts.generateSpendProof_without_subtle env tok
                  (or_else (ri_method options) "GET" +:+ ":" +:+ pathname u) (browser p0) Hs) as Hn.
    rewrite Hg in Hn. discriminate.
  - rewrite (fetch_prepare_throws env url options p e p1 H). cbn [fst snd] in *. auto.
Qed.

(** X27. One [fetch] makes one call to the proxy when the request could be
    prepared, and none otherwise. *)
Theorem fetch_calls_the_proxy_once env url options p :
  proxy_calls (calls (browser (snd (fetch env url options p))))
  = proxy_calls (calls (browser p))
    ++ match fst (prepare env url options p) with
       | Ok call => [call]
       | Throw _ => []
       end.
Proof.
  pose proof (prepare_frame env url options p) as (Hp & _).
  destruct (prepare env url options p) as [[call|e] p1] eqn:H; cbn [fst snd] in *.
  - destruct (fetch_after_prepare env url options p call p1 H) as (_ & -> & _).
    rewrite proxy_calls_app, Hp. reflexivity.
  - rewrite (fetch_prepare_throws env url options p e p1 H). cbn [snd].
    now rewrite Hp, app_nil_r.
Qed.

(** X28. With a token in memory [fetch] leaves the issuer and the stored tokens
    alone, and the token stays. *)
Theorem fetch_with_a_token_does_not_mint env url options p t :
  token (widget p) = Some t ->
  let p' := snd (fetch env url options p) in
  token (widget p') = Some t
  /\ issuer_calls (calls (browser p')) = issuer_calls (calls (browser p))
  /\ localStorage (browser p') = localStorage (browser p).
Proof.
  intros Ht. cbn zeta.
  pose proof (prepare_frame env url options p) as (_ & _ & _ & _ & Hk).
  destruct (Hk t Ht) as (Htok & Hc & Hl).
  destruct (prepare env url options p) as [[call|e] p1] eqn:H; cbn [fst snd] in *.
  - pose proof (fetch_after_prepare env url options p call p1 H) as (_ & Hcalls & _).
    rewrite Hcalls, issuer_calls_app, Hc. cbn. rewrite app_nil_r.
    unfold fetch. rewrite try_rethrow, (bind_ok _ _ _ _ _ H).
    destruct p1 as [w b]. cbn [widget browser] in *.
    unfold fetch_proxy, bind, get, in_browser, zoom, modify, update, ret, throw.
    cbn [widget browser set_browser].
    destruct (proxy env _ call) as [msg|r]; cbn; [auto|].
    destruct (quota_status (status r)); cbn; auto.
  - rewrite (fetch_prepare_throws env url options p e p1 H). cbn [snd]. now rewrite Hc.
Qed.

(** [getToken] gives the cached token in standard base64; asking again
    gives the same text and changes nothing. *)
Theorem getToken_is_stable env p s p' :
  getToken env p = (Ok s, p') ->
  (exists t, token (widget p') = Some t /\ s = btoa env t)
  /\ getToken env p' = (Ok s, p').
Proof.
  unfold getToken. intros H. apply bind_ok_inv in H as (t & p0 & He & H).
  injection H as <- <-.
  pose proof (ensureToken_ok_token env p t p0 He) as Ht.
  split; [eauto|].
  now rewrite (bind_ok _ _ _ _ _ (ensureToken_cached env p0 t Ht)).
Qed.

Lemma init_config env c p :
  config (widget (snd (init env c p)))
  = {| siteId := siteId c;
       issuerUrl := Some (or_else (issuerUrl c) default_issuer);
       proxyUrl := Some (or_else (proxyUrl c) default_proxy);
       showBadge := Some (match showBadge c with Some false => false | _ => true end) |}.
Proof.
  rewrite init_steps. cbn zeta.
  destruct (getOrCreateDeviceIdentity env (browser p)) as [[di|e] b1]; [|reflexivity].
  match goal with
  | |- context [ensureToken env ?q] =>
      pose proof (ensureToken_frame env q) as (Hcfg & _);
      destruct (ensureToken env q) as [[t|e] p']
  end; cbn [fst snd] in *; rewrite Hcfg; destruct (showBadge c) as [[|]|]; reflexivity.
Qed.

(** X29. Loading the script never throws; with a [data-site] attribute the
    widget is configured for that site and always with the production
    issuer, since no attribute names another; without one, or without a
    script tag, nothing happens. *)
Theorem script_tag_init_uses_the_default_issuer env script p :
  fst (auto_init env script p) = Ok tt
  /\ (forall tag, script = Some tag -> truthy (data_site tag) = true ->
        issuerUrl (config (widget (snd (auto_init env script p)))) = Some default_issuer
        /\ siteId (config (widget (snd (auto_init env script p)))) = or_else (data_site tag) "")
  /\ (forall tag, script = Some tag -> truthy (data_site tag) = false ->
        auto_init env script p = (Ok tt, p))
  /\ (script = None -> auto_init env script p = (Ok tt, p)).
Proof.
  unfold auto_init, script_config.
  destruct script as [tag|]; [|repeat split; intros; congruence].
  destruct (truthy (data_site tag)) eqn:Hsite.
  - unfold try_catch, ret.
    match goal with
    | |- context [init env ?c p] =>
        pose proof (init_config env c p) as Hc;
        destruct (init env c p) as [[[]|e] p']
    end; cbn [fst snd] in *; rewrite Hc; cbn [issuerUrl siteId].
    all: repeat split; intros; try congruence.
    all: match goal with H : Some _ = Some _ |- _ => injection H as <- end; reflexivity.
  - repeat split; intros; try congruence.
    all: match goal with H : Some _ = Some _ |- _ => injection H as <- end; congruence.
Qed.

(** X30. A click on an action element never throws: a response, rate-limited
    or not, is dispatched as [scopeblind:success] (with the quota modal
    showing for 429 and 402), the cost reaches the proxy in the
    X-ScopeBlind-Cost header (normalised, which leaves a text without
    blanks, such as that of a number, as it is), and any exception becomes
    [scopeblind:error]. *)
Theorem action_click_dispatches_an_event env action cost p :
  let options := {| ri_method := Some "POST";
                    ri_headers := [("X-ScopeBlind-Cost", cost)];
                    ri_body := None |} in
  let r := fst (action_click env action cost p) in
  let p' := snd (action_click env action cost p) in
  match prepare env ("/api/" +:+ action) options p with
  | (Ok call, p1) =>
      headers_get "X-ScopeBlind-Cost" (ri_headers (pc_init call))
      = Some (normalize_value cost)
      /\ (all_chars (fun c => negb (http_whitespace c)) cost = true ->
          headers_get "X-ScopeBlind-Cost" (ri_headers (pc_init call)) = Some cost)
      /\ match proxy env (length (calls (browser p1))) call with
         | Resolved response =>
             r = Ok (scopeblind_success response action cost)
             /\ (quota_status (status response) = true ->
                 UI.quota_modal_visible (ui (widget p')) = true)
         | Rejected msg => r = Ok (scopeblind_error (TypeError msg) action cost)
         end
  | (Throw e, _) => r = Ok (scopeblind_error e action cost)
  end.
Proof.
  cbn zeta. unfold action_click, try_catch, bind, ret.
  destruct (prepare env _ _ p) as [[call|e] p1] eqn:H.
  - destruct (prepared_headers _ _ _ _ _ _ H) as (h0 & H0 & _ & _ & _ & Hother).
    assert (Hcost : headers_get "X-ScopeBlind-Cost" (ri_headers (pc_init call))
                    = Some (normalize_value cost)).
    { rewrite Hother by (cbn; discriminate).
      rewrite (headers_new_get _ _ _ H0) by (cbn; repeat constructor; intros []).
      reflexivity. }
    split; [exact Hcost|].
    split; [intros Hplain; now rewrite Hcost, normalize_value_plain|].
    destruct (fetch_after_prepare _ _ _ _ _ _ H) as (Hr & _ & Hui).
    destruct (fetch env _ _ p) as [fr fp]. cbn [fst snd] in *.
    destruct (proxy env _ call) as [msg|response]; subst fr; cbn; [reflexivity|].
    split; [reflexivity|]. intros Hq. rewrite Hq in Hui. rewrite Hui.
    apply UIFacts.showQuotaExceeded_visible.
  - rewrite (fetch_prepare_throws _ _ _ _ _ _ H). reflexivity.
Qed.

End WidgetLaws.

(** * Instances of the further properties *)

Module GatewayWitnesses.
Import JS Gateway.

(** X1 on a request with an empty proof header and a verifier that would refuse it. *)
Lemma request_without_proof_witness :
  (carries_proof Sample.empty_proof_request = false)
  /\ ((Gateway.api_handler Sample.new_URL Sample.verifier_rejects Sample.backend_echo) Sample.bindings Sample.empty_proof_request = forward_step Sample.new_URL Sample.backend_echo Sample.bindings Sample.empty_proof_request []
      /\ forall c, ~ In (CallVerifier c) (snd ((Gateway.api_handler Sample.new_URL Sample.verifier_rejects Sample.backend_echo) Sample.bindings Sample.empty_proof_request))).
Proof.
  assert (H1 : carries_proof Sample.empty_proof_request = false)
    by (reflexivity).
  split; [exact H1|].
  exact (GatewayLaws.request_without_proof_is_let_through Sample.new_URL Sample.verifier_rejects Sample.backend_echo Sample.bindings Sample.empty_proof_request H1).
Defined.

(** X2 on a verified request and bindings that name no backend. *)
Lemma missing_backend_url_witness :
  (BACKEND_URL Sample.bindings_without_backend = None \/ BACKEND_URL Sample.bindings_without_backend = Some "")
  /\ (backend_calls (snd ((Gateway.api_handler Sample.new_URL Sample.verifier_allows Sample.backend_echo) Sample.bindings_without_backend Sample.post_chat)) = []
      /\ (carries_proof Sample.post_chat = false ->
          (Gateway.api_handler Sample.new_URL Sample.verifier_allows Sample.backend_echo) Sample.bindings_without_backend Sample.post_chat = (JsonError 500 "BACKEND_URL not configured" None, []))
      /\ (forall vr j,
            carries_proof Sample.post_chat = true ->
            Sample.verifier_allows (verify_call Sample.bindings_without_backend Sample.post_chat) = Resolved vr -> ok vr = true -> json vr = Some j ->
            (Gateway.api_handler Sample.new_URL Sample.verifier_allows Sample.backend_echo) Sample.bindings_without_backend Sample.post_chat
            = (JsonError 500 "BACKEND_URL not configured" None,
               [CallVerifier (verify_call Sample.bindings_without_backend Sample.post_chat)]))).
Proof.
  assert (H1 : BACKEND_URL Sample.bindings_without_backend = None \/ BACKEND_URL Sample.bindings_without_backend = Some "")
    by (left; reflexivity).
  split; [exact H1|].
  exact (GatewayLaws.missing_backend_url_is_answered_500 Sample.new_URL Sample.verifier_allows Sample.backend_echo Sample.bindings_without_backend Sample.post_chat H1).
Defined.

(** X4 on a verified request and a backend that answers 200. *)
Lemma backend_response_witness :
  (In (Gateway.backend_call Sample.chat_target Sample.post_chat) (backend_calls (snd ((Gateway.api_handler Sample.new_URL Sample.verifier_allows Sample.backend_echo) Sample.bindings Sample.post_chat)))
   /\ Sample.backend_echo (Gateway.backend_call Sample.chat_target Sample.post_chat) = Resolved (Sample.plain 200 "/api/chat" None))
  /\ (exists r',
        fst ((Gateway.api_handler Sample.new_URL Sample.verifier_allows Sample.backend_echo) Sample.bindings Sample.post_chat) = Relayed r'
        /\ status r' = status (Sample.plain 200 "/api/chat" None)
        /\ statusText r' = statusText (Sample.plain 200 "/api/chat" None)
        /\ text r' = text (Sample.plain 200 "/api/chat" None)
        /\ headers_get "Access-Control-Allow-Origin" (resp_headers r') = Some "*"
        /\ forall name,
             toLowerCase name <> "access-control-allow-origin" ->
             headers_get name (resp_headers r') = headers_get name (resp_headers (Sample.plain 200 "/api/chat" None))).
Proof.
  assert (H1 : In (Gateway.backend_call Sample.chat_target Sample.post_chat) (backend_calls (snd ((Gateway.api_handler Sample.new_URL Sample.verifier_allows Sample.backend_echo) Sample.bindings Sample.post_chat))))
    by (left; reflexivity).
  assert (H2 : Sample.backend_echo (Gateway.backend_call Sample.chat_target Sample.post_chat) = Resolved (Sample.plain 200 "/api/chat" None))
    by (reflexivity).
  split; [exact (conj H1 H2)|].
  exact (GatewayLaws.backend_response_is_relayed Sample.new_URL Sample.verifier_allows Sample.backend_echo Sample.bindings Sample.post_chat (Gateway.backend_call Sample.chat_target Sample.post_chat) (Sample.plain 200 "/api/chat" None) H1 H2).
Defined.

(** X5 on the sample request. *)
Lemma other_headers_witness :
  (List.NoDup (map (fun kv => toLowerCase (fst kv)) (headers Sample.post_chat)))
  /\ (headers_get "Host" (bc_headers (backend_call Sample.chat_target Sample.post_chat)) = Some (url_host Sample.chat_target)
      /\ forall name value,
           headers_get name (headers Sample.post_chat) = Some value ->
           reserved (name, value) = false ->
           toLowerCase name <> "host" ->
           headers_get name (bc_headers (backend_call Sample.chat_target Sample.post_chat)) = Some value).
Proof.
  assert (H1 : List.NoDup (map (fun kv => toLowerCase (fst kv)) (headers Sample.post_chat)))
    by (repeat constructor; cbn; intuition discriminate).
  split; [exact H1|].
  exact (GatewayLaws.other_headers_reach_the_backend Sample.chat_target Sample.post_chat H1).
Defined.

End GatewayWitnesses.

Module VoprfWitnesses.
Import JS Effect Browser Voprf.

(** X6 on a new client. *)
Lemma finalize_before_blind_witness :
  (finData Voprf.new_client = None)
  /\ (is_ok (fst (finalize Sample.env (utf8 "eval") Voprf.new_client)) = false
      /\ snd (finalize Sample.env (utf8 "eval") Voprf.new_client) = Voprf.new_client).
Proof.
  assert (H1 : finData Voprf.new_client = None)
    by (reflexivity).
  split; [exact H1|].
  exact (VoprfLaws.finalize_before_blind_throws Sample.env (utf8 "eval") Voprf.new_client H1).
Defined.

(** X7 on two blinds of a new client. *)
Lemma second_blind_witness :
  (voprf_blind Sample.env 0%nat (utf8 "one") = Some ({| fd_input := utf8 "one"; fd_blind := utf8 "a-uuid" |}, (utf8 "onea-uuid"))
   /\ voprf_blind Sample.env 1%nat (utf8 "two") = Some ({| fd_input := utf8 "two"; fd_blind := utf8 "b-uuid" |}, (utf8 "twob-uuid")))
  /\ (let c1 := snd (generateBlindRequest Sample.env 0%nat "one" Voprf.new_client) in
      let c2 := snd (generateBlindRequest Sample.env 1%nat "two" c1) in
      finData c1 = Some {| fd_input := utf8 "one"; fd_blind := utf8 "a-uuid" |}
      /\ finData c2 = Some {| fd_input := utf8 "two"; fd_blind := utf8 "b-uuid" |}
      /\ finalize Sample.env (utf8 "eval") c2 = finalize Sample.env (utf8 "eval") {| finData := Some {| fd_input := utf8 "two"; fd_blind := utf8 "b-uuid" |} |}).
Proof.
  assert (H1 : voprf_blind Sample.env 0%nat (utf8 "one") = Some ({| fd_input := utf8 "one"; fd_blind := utf8 "a-uuid" |}, (utf8 "onea-uuid")))
    by (reflexivity).
  assert (H2 : voprf_blind Sample.env 1%nat (utf8 "two") = Some ({| fd_input := utf8 "two"; fd_blind := utf8 "b-uuid" |}, (utf8 "twob-uuid")))
    by (reflexivity).
  split; [exact (conj H1 H2)|].
  exact (VoprfLaws.second_blind_replaces_the_context Sample.env 0%nat "one" 1%nat "two" _ _ _ _ (utf8 "eval") Voprf.new_client H1 H2).
Defined.

End VoprfWitnesses.

Module HolderBindingWitnesses.
Import JS Effect Browser HolderBinding.

(** X9 on a first visit to the sample platform. *)
Lemma first_visit_witness :
  (crypto Sample.env = Some Sample.secure_crypto
   /\ subtle Sample.secure_crypto = Some Sample.subtle
   /\ indexedDB_opens Sample.env = true
   /\ database Sample.fresh_browser = NoDatabase
   /\ generateKey Sample.subtle (draws Sample.fresh_browser) = Some {| publicKey := PublicKey 0; privateKey := PrivateKey 0 |}
   /\ exportKey Sample.subtle (publicKey {| publicKey := PublicKey 0; privateKey := PrivateKey 0 |}) = Some (utf8 "spki"))
  /\ (let b' := snd (getOrCreateDeviceIdentity Sample.env Sample.fresh_browser) in
      fst (getOrCreateDeviceIdentity Sample.env Sample.fresh_browser)
      = Ok {| type := webcrypto; di_publicKey := Some (utf8 "spki"); deviceId := None |}
      /\ database b'
         = Store {| idb_publicKey := Some (utf8 "spki"); idb_privateKey := Some (privateKey {| publicKey := PublicKey 0; privateKey := PrivateKey 0 |}) |}
      /\ localStorage b' = localStorage Sample.fresh_browser
      /\ getOrCreateDeviceIdentity Sample.env b'
         = (Ok {| type := webcrypto; di_publicKey := Some (utf8 "spki"); deviceId := None |}, b')
      /\ forall method path body,
           fst (signRequest Sample.env method path body b')
           = match sign Sample.subtle (privateKey {| publicKey := PublicKey 0; privateKey := PrivateKey 0 |})
                     (utf8 (method +:+ ":" +:+ path +:+ ":" +:+ or_else body "")) with
             | Some signature => Ok (Some (btoa Sample.env signature))
             | None => Ok None
             end).
Proof.
  assert (H1 : crypto Sample.env = Some Sample.secure_crypto)
    by (reflexivity).
  assert (H2 : subtle Sample.secure_crypto = Some Sample.subtle)
    by (reflexivity).
  assert (H3 : indexedDB_opens Sample.env = true)
    by (reflexivity).
  assert (H4 : database Sample.fresh_browser = NoDatabase)
    by (reflexivity).
  assert (H5 : generateKey Sample.subtle (draws Sample.fresh_browser) = Some {| publicKey := PublicKey 0; privateKey := PrivateKey 0 |})
    by (reflexivity).
  assert (H6 : exportKey Sample.subtle (publicKey {| publicKey := PublicKey 0; privateKey := PrivateKey 0 |}) = Some (utf8 "spki"))
    by (reflexivity).
  split; [exact (conj H1 (conj H2 (conj H3 (conj H4 (conj H5 H6)))))|].
  exact (HolderBindingLaws.first_visit_creates_a_signing_identity Sample.env Sample.secure_crypto Sample.subtle _ (utf8 "spki") Sample.fresh_browser H1 H2 H3 H4 H5 H6).
Defined.

(** X10 on the browser of a returning visitor. *)
Lemma stored_identity_witness :
  (crypto Sample.env = Some Sample.secure_crypto
   /\ subtle Sample.secure_crypto = Some Sample.subtle
   /\ indexedDB_opens Sample.env = true
   /\ database Sample.returning_browser = Store {| idb_publicKey := Some (utf8 "spki"); idb_privateKey := Some (PrivateKey 0) |}
   /\ idb_publicKey {| idb_publicKey := Some (utf8 "spki"); idb_privateKey := Some (PrivateKey 0) |} = Some (utf8 "spki"))
  /\ (getOrCreateDeviceIdentity Sample.env Sample.returning_browser
      = (Ok {| type := webcrypto; di_publicKey := Some (utf8 "spki"); deviceId := None |}, Sample.returning_browser)).
Proof.
  assert (H1 : crypto Sample.env = Some Sample.secure_crypto)
    by (reflexivity).
  assert (H2 : subtle Sample.secure_crypto = Some Sample.subtle)
    by (reflexivity).
  assert (H3 : indexedDB_opens Sample.env = true)
    by (reflexivity).
  assert (H4 : database Sample.returning_browser = Store {| idb_publicKey := Some (utf8 "spki"); idb_privateKey := Some (PrivateKey 0) |})
    by (vm_compute; reflexivity).
  assert (H5 : idb_publicKey {| idb_publicKey := Some (utf8 "spki"); idb_privateKey := Some (PrivateKey 0) |} = Some (utf8 "spki"))
    by (reflexivity).
  split; [exact (conj H1 (conj H2 (conj H3 (conj H4 H5))))|].
  exact (HolderBindingLaws.stored_identity_is_returned Sample.env Sample.secure_crypto Sample.subtle _ (utf8 "spki") Sample.returning_browser H1 H2 H3 H4 H5).
Defined.


(** X13 on a first visit. *)
Lemma signing_first_witness :
  (indexedDB_opens Sample.env = true
   /\ database Sample.fresh_browser = NoDatabase)
  /\ (let b1 := snd (signRequest Sample.env "POST" "/chat" None Sample.fresh_browser) in
      let r := getOrCreateDeviceIdentity Sample.env b1 in
      fst (signRequest Sample.env "POST" "/chat" None Sample.fresh_browser) = Ok None
      /\ database b1 = NoObjectStore
      /\ database (snd r) = NoObjectStore
      /\ (forall di, fst r = Ok di -> type di = fallback)).
Proof.
  assert (H1 : indexedDB_opens Sample.env = true)
    by (reflexivity).
  assert (H2 : database Sample.fresh_browser = NoDatabase)
    by (reflexivity).
  split; [exact (conj H1 H2)|].
  exact (HolderBindingLaws.signing_first_rules_out_the_strong_identity Sample.env "POST" "/chat" None Sample.fresh_browser H1 H2).
Defined.

(** X14 on a platform with randomUUID and without subtle. *)
Lemma fallback_identity_witness :
  (getFallbackIdentity Sample.env_no_subtle Sample.fresh_browser = (Ok {| type := fallback; di_publicKey := None; deviceId := Some "a-uuid" |}, (snd (getFallbackIdentity Sample.env_no_subtle Sample.fresh_browser)))
   /\ (forall c gen n, crypto Sample.env_no_subtle = Some c -> randomUUID c = Some gen -> gen n <> ""))
  /\ (type {| type := fallback; di_publicKey := None; deviceId := Some "a-uuid" |} = fallback
      /\ (exists id, deviceId {| type := fallback; di_publicKey := None; deviceId := Some "a-uuid" |} = Some id /\ id <> "" /\ localStorage (snd (getFallbackIdentity Sample.env_no_subtle Sample.fresh_browser)) !! STORAGE_KEY = Some id)
      /\ getFallbackIdentity Sample.env_no_subtle (snd (getFallbackIdentity Sample.env_no_subtle Sample.fresh_browser)) = (Ok {| type := fallback; di_publicKey := None; deviceId := Some "a-uuid" |}, (snd (getFallbackIdentity Sample.env_no_subtle Sample.fresh_browser)))).
Proof.
  assert (H1 : getFallbackIdentity Sample.env_no_subtle Sample.fresh_browser = (Ok {| type := fallback; di_publicKey := None; deviceId := Some "a-uuid" |}, (snd (getFallbackIdentity Sample.env_no_subtle Sample.fresh_browser))))
    by (vm_compute; reflexivity).
  assert (H2 : (forall c gen n, crypto Sample.env_no_subtle = Some c -> randomUUID c = Some gen -> gen n <> ""))
    by (intros c gen n [= <-] [= <-]; discriminate).
  split; [exact (conj H1 H2)|].
  exact (HolderBindingFacts.fallback_identity_is_stable Sample.env_no_subtle Sample.fresh_browser _ _ H1 H2).
Defined.

(** X15 on a platform with randomUUID and without subtle. *)
Lemma sign_is_null_witness :
  (keys_paired Sample.fresh_browser
   /\ getOrCreateDeviceIdentity Sample.env_no_subtle Sample.fresh_browser = (Ok {| type := fallback; di_publicKey := None; deviceId := Some "a-uuid" |}, (snd (getOrCreateDeviceIdentity Sample.env_no_subtle Sample.fresh_browser)))
   /\ type {| type := fallback; di_publicKey := None; deviceId := Some "a-uuid" |} = fallback)
  /\ (forall method path body, fst (signRequest Sample.env_no_subtle method path body (snd (getOrCreateDeviceIdentity Sample.env_no_subtle Sample.fresh_browser))) = Ok None).
Proof.
  assert (H1 : keys_paired Sample.fresh_browser)
    by (exact I).
  assert (H2 : getOrCreateDeviceIdentity Sample.env_no_subtle Sample.fresh_browser = (Ok {| type := fallback; di_publicKey := None; deviceId := Some "a-uuid" |}, (snd (getOrCreateDeviceIdentity Sample.env_no_subtle Sample.fresh_browser))))
    by (vm_compute; reflexivity).
  assert (H3 : type {| type := fallback; di_publicKey := None; deviceId := Some "a-uuid" |} = fallback)
    by (reflexivity).
  split; [exact (conj H1 (conj H2 H3))|].
  exact (HolderBindingFacts.sign_is_null_in_fallback Sample.env_no_subtle Sample.fresh_browser _ _ H1 H2 H3).
Defined.

End HolderBindingWitnesses.

Module WidgetWitnesses.
Import JS Effect Browser HolderBinding Widget.

(** X19 on a [btoa] text with plus, slash and padding. *)
Lemma decode_of_encode_witness :
  (includes "-" (btoa Sample.env (utf8 "a+b/c==")) = false
   /\ includes "_" (btoa Sample.env (utf8 "a+b/c==")) = false)
  /\ (base64url_decode Sample.env (base64url_encode Sample.env (utf8 "a+b/c==")) = atob Sample.env (strip_padding (btoa Sample.env (utf8 "a+b/c==")))).
Proof.
  assert (H1 : includes "-" (btoa Sample.env (utf8 "a+b/c==")) = false)
    by (reflexivity).
  assert (H2 : includes "_" (btoa Sample.env (utf8 "a+b/c==")) = false)
    by (reflexivity).
  split; [exact (conj H1 H2)|].
  exact (WidgetLaws.base64url_decode_of_encode Sample.env (utf8 "a+b/c==") H1 H2).
Defined.

(** X20 on the first mint of the sample page. *)
Lemma reload_witness :
  (token (widget Sample.configured_page) = None
   /\ truthy (localStorage (browser Sample.configured_page) !! token_key (siteId (config (widget Sample.configured_page)))) = false
   /\ ensureToken Sample.env Sample.configured_page = (Ok (utf8 "a-uuidA+eval"), (snd (ensureToken Sample.env Sample.configured_page)))
   /\ stringify_bytes Sample.env (utf8 "a-uuidA+eval") <> ""
   /\ parse_bytes Sample.env (stringify_bytes Sample.env (utf8 "a-uuidA+eval")) = Some (utf8 "a-uuidA+eval")
   /\ token (widget Sample.configured_page) = None
   /\ siteId (config (widget Sample.configured_page)) = siteId (config (widget Sample.configured_page)))
  /\ (ensureToken Sample.env {| widget := (widget Sample.configured_page); browser := browser (snd (ensureToken Sample.env Sample.configured_page)) |}
      = (Ok (utf8 "a-uuidA+eval"), {| widget := set_token (Some (utf8 "a-uuidA+eval")) (widget Sample.configured_page); browser := browser (snd (ensureToken Sample.env Sample.configured_page)) |})).
Proof.
  assert (H1 : token (widget Sample.configured_page) = None)
    by (reflexivity).
  assert (H2 : truthy (localStorage (browser Sample.configured_page) !! token_key (siteId (config (widget Sample.configured_page)))) = false)
    by (reflexivity).
  assert (H3 : ensureToken Sample.env Sample.configured_page = (Ok (utf8 "a-uuidA+eval"), (snd (ensureToken Sample.env Sample.configured_page))))
    by (vm_compute; reflexivity).
  assert (H4 : stringify_bytes Sample.env (utf8 "a-uuidA+eval") <> "")
    by (discriminate).
  assert (H5 : parse_bytes Sample.env (stringify_bytes Sample.env (utf8 "a-uuidA+eval")) = Some (utf8 "a-uuidA+eval"))
    by (reflexivity).
  assert (H6 : token (widget Sample.configured_page) = None)
    by (reflexivity).
  assert (H7 : siteId (config (widget Sample.configured_page)) = siteId (config (widget Sample.configured_page)))
    by (reflexivity).
  split; [exact (conj H1 (conj H2 (conj H3 (conj H4 (conj H5 (conj H6 H7))))))|].
  exact (WidgetLaws.minted_token_survives_a_reload Sample.env Sample.configured_page _ _ (widget Sample.configured_page) H1 H2 H3 H4 H5 H6 H7).
Defined.

(** X21 on a page whose stored token is not JSON. *)
Lemma corrupt_token_witness :
  (token (widget Sample.corrupt_page) = None
   /\ localStorage (browser Sample.corrupt_page) !! token_key (siteId (config (widget Sample.corrupt_page))) = Some "oops"
   /\ "oops" <> ""
   /\ parse_bytes Sample.env_strict_json "oops" = None)
  /\ (ensureToken Sample.env_strict_json Sample.corrupt_page = (Throw (SyntaxError "JSON.parse"), Sample.corrupt_page)
      /\ forall url options, fetch Sample.env_strict_json url options Sample.corrupt_page = (Throw (SyntaxError "JSON.parse"), Sample.corrupt_page)).
Proof.
  assert (H1 : token (widget Sample.corrupt_page) = None)
    by (reflexivity).
  assert (H2 : localStorage (browser Sample.corrupt_page) !! token_key (siteId (config (widget Sample.corrupt_page))) = Some "oops")
    by (vm_compute; reflexivity).
  assert (H3 : "oops" <> "")
    by (discriminate).
  assert (H4 : parse_bytes Sample.env_strict_json "oops" = None)
    by (reflexivity).
  split; [exact (conj H1 (conj H2 (conj H3 H4)))|].
  exact (WidgetLaws.corrupt_stored_token_blocks_the_widget Sample.env_strict_json Sample.corrupt_page "oops" H1 H2 H3 H4).
Defined.

(** X22 on the ready page, initialised again for another site. *)
Lemma token_across_sites_witness :
  (token (widget Sample.ready_page) = Some (utf8 "b-uuidA+eval"))
  /\ (let p' := snd (init Sample.env Sample.site_7 Sample.ready_page) in
      token (widget p') = Some (utf8 "b-uuidA+eval")
      /\ siteId (config (widget p')) = siteId Sample.site_7
      /\ calls (browser p') = calls (browser Sample.ready_page)
      /\ localStorage (browser p') !! token_key (siteId Sample.site_7)
         = localStorage (browser Sample.ready_page) !! token_key (siteId Sample.site_7)).
Proof.
  assert (H1 : token (widget Sample.ready_page) = Some (utf8 "b-uuidA+eval"))
    by (vm_compute; reflexivity).
  split; [exact H1|].
  exact (WidgetLaws.token_is_kept_across_sites Sample.env Sample.site_7 Sample.ready_page _ H1).
Defined.

(** X24 on a page served over plain HTTP. *)
Lemma init_stops_witness :
  (getOrCreateDeviceIdentity Sample.env_insecure (browser Sample.fresh_page) = (Throw (TypeError "crypto.randomUUID is not a function"), Sample.fresh_browser))
  /\ (let p' := snd (init Sample.env_insecure Sample.site_42 Sample.fresh_page) in
      fst (init Sample.env_insecure Sample.site_42 Sample.fresh_page) = Throw (TypeError "crypto.randomUUID is not a function")
      /\ token (widget p') = token (widget Sample.fresh_page)
      /\ deviceIdentity (widget p') = deviceIdentity (widget Sample.fresh_page)
      /\ ui (widget p') = ui (widget Sample.fresh_page)
      /\ calls (browser p') = calls (browser Sample.fresh_page)).
Proof.
  assert (H1 : getOrCreateDeviceIdentity Sample.env_insecure (browser Sample.fresh_page) = (Throw (TypeError "crypto.randomUUID is not a function"), Sample.fresh_browser))
    by (reflexivity).
  split; [exact H1|].
  exact (WidgetLaws.init_stops_without_an_identity Sample.env_insecure Sample.site_42 Sample.fresh_page _ _ H1).
Defined.

(** X25 on a request whose caller gives an Accept header with blanks around its value and a site header of its own. *)
Lemma site_and_proof_headers_witness :
  (prepare Sample.env "/chat?lang=en" Sample.accept_options Sample.ready_page = (Ok Sample.accept_call, Sample.accept_page))
  /\ (headers_get "X-ScopeBlind-Site" (ri_headers (pc_init Sample.accept_call))
      = Some (normalize_value (siteId (config (widget Sample.ready_page))))
      /\ (exists proof, headers_get "X-ScopeBlind-Proof" (ri_headers (pc_init Sample.accept_call)) = Some proof)
      /\ Forall (fun kv => header_name (fst kv) = true
                           /\ header_value (normalize_value (snd kv)) = true)
           (ri_headers Sample.accept_options)
      /\ (List.NoDup (map (fun kv => toLowerCase (fst kv)) (ri_headers Sample.accept_options)) ->
          forall name,
            toLowerCase name <> "x-scopeblind-proof" ->
            toLowerCase name <> "x-scopeblind-site" ->
            toLowerCase name <> "x-scopeblind-signature" ->
            toLowerCase name <> "x-scopeblind-device" ->
            headers_get name (ri_headers (pc_init Sample.accept_call))
            = option_map normalize_value (headers_get name (ri_headers Sample.accept_options)))
      /\ ri_method (pc_init Sample.accept_call) = ri_method Sample.accept_options
      /\ ri_body (pc_init Sample.accept_call) = ri_body Sample.accept_options)
  /\ headers_get "Accept" (ri_headers Sample.accept_options) = Some " text/plain "
  /\ headers_get "Accept" (ri_headers (pc_init Sample.accept_call)) = Some "text/plain"
  /\ headers_get "X-ScopeBlind-Site" (ri_headers (pc_init Sample.accept_call)) = Some "site_42".
Proof.
  assert (H1 : prepare Sample.env "/chat?lang=en" Sample.accept_options Sample.ready_page = (Ok Sample.accept_call, Sample.accept_page))
    by (vm_compute; reflexivity).
  split; [exact H1|].
  split; [|repeat split].
  exact (WidgetLaws.fetch_sets_site_and_proof_headers Sample.env "/chat?lang=en" Sample.accept_options Sample.ready_page _ _ H1).
Defined.

(** X26 on a platform without subtle, with a token in memory. *)
Lemma fetch_needs_subtle_witness :
  (window_crypto_subtle Sample.env_no_subtle = None)
  /\ (is_ok (fst (fetch Sample.env_no_subtle "/chat" Sample.post_options Sample.ready_page)) = false
      /\ proxy_calls (calls (browser (snd (fetch Sample.env_no_subtle "/chat" Sample.post_options Sample.ready_page)))) = proxy_calls (calls (browser Sample.ready_page))).
Proof.
  assert (H1 : window_crypto_subtle Sample.env_no_subtle = None)
    by (reflexivity).
  split; [exact H1|].
  exact (WidgetLaws.fetch_needs_subtle Sample.env_no_subtle "/chat" Sample.post_options Sample.ready_page H1).
Defined.

(** X28 on the ready page. *)
Lemma fetch_with_a_token_witness :
  (token (widget Sample.ready_page) = Some (utf8 "b-uuidA+eval"))
  /\ (let p' := snd (fetch Sample.env "/chat?lang=en" Sample.post_options Sample.ready_page) in
      token (widget p') = Some (utf8 "b-uuidA+eval")
      /\ issuer_calls (calls (browser p')) = issuer_calls (calls (browser Sample.ready_page))
      /\ localStorage (browser p') = localStorage (browser Sample.ready_page)).
Proof.
  assert (H1 : token (widget Sample.ready_page) = Some (utf8 "b-uuidA+eval"))
    by (vm_compute; reflexivity).
  split; [exact H1|].
  exact (WidgetLaws.fetch_with_a_token_does_not_mint Sample.env "/chat?lang=en" Sample.post_options Sample.ready_page _ H1).
Defined.

End WidgetWitnesses.
